(** * Okonf: check/apply reconciliation, result aggregation, directory diff

    A shallow embedding of [okonf/facts/abstract.py], [okonf/facts/apt.py]
    and [okonf/modules/files.py].

    - Python's nested [bool]/[list] payloads are the inductive [nested].
    - [async] methods that talk to a host are programs of the monad [M]:
      they thread the host state, may raise, and emit the operations they
      issue, in order.
    - Text is [string]; the [str] methods the code calls are written out. *)

From Stdlib Require Import List String Ascii Bool Arith Lia.
Import ListNotations.
Local Open Scope string_scope.
Local Open Scope list_scope.

Set Implicit Arguments.

(* ===================================================================== *)
(** ** Nested boolean payloads (facts/abstract.py, lines 12-83) *)
(* ===================================================================== *)

(** The payload of a [FactCheck]/[FactResult] is asserted to be a [bool] or
    a [list]; an element of a list is either iterable (a list again) or is
    taken by its truth value. *)
#[local] Unset Elimination Schemes.
Inductive nested : Type :=
| Leaf (b : bool)
| Seq (l : list nested).
#[local] Set Elimination Schemes.

(** Induction over [nested] that also gives the hypothesis for every
    element of a sequence. *)
Section NestedInd.
Variable P : nested -> Prop.
Hypothesis HLeaf : forall b, P (Leaf b).
Hypothesis HSeq : forall l, Forall P l -> P (Seq l).

Fixpoint nested_rect_list (n : nested) : P n :=
  match n with
  | Leaf b => HLeaf b
  | Seq l =>
      HSeq ((fix go (l : list nested) : Forall P l :=
               match l with
               | [] => Forall_nil P
               | x :: tl => Forall_cons x (nested_rect_list x) (go tl)
               end) l)
  end.
End NestedInd.

(** [all_true(iterable)]: the loop returns [False] at the first element that
    is an iterable not all true, or a non-iterable that is falsy.  The
    recursion goes through the elements of the list, so the loop is the
    inner [fix] and the recursive call on an iterable element the outer
    one; [all_true_nil], [all_true_seq] and [all_true_leaf] below give back
    the three branches of the source. *)
Fixpoint all_true_of (payload : nested) : bool :=
  match payload with
  | Leaf b => b
  | Seq iterable =>
      (fix loop (iterable : list nested) : bool :=
         match iterable with
         | [] => true
         | element :: rest =>
             match element with
             | Seq _ => if negb (all_true_of element) then false else loop rest
             | Leaf element => if negb element then false else loop rest
             end
         end) iterable
  end.

Definition all_true (iterable : list nested) : bool :=
  all_true_of (Seq iterable).

(** [any_true(iterable)]: line 29 reads [if not any_true(element): return
    True]; the [not] is kept as written. *)
Fixpoint any_true_of (payload : nested) : bool :=
  match payload with
  | Leaf b => b
  | Seq iterable =>
      (fix loop (iterable : list nested) : bool :=
         match iterable with
         | [] => false
         | element :: rest =>
             match element with
             | Seq _ => if negb (any_true_of element) then true else loop rest
             | Leaf element => if element then true else loop rest
             end
         end) iterable
  end.

Definition any_true (iterable : list nested) : bool :=
  any_true_of (Seq iterable).

(** The leaves of a payload, depth first, left to right. *)
Fixpoint leaves (n : nested) : list bool :=
  match n with
  | Leaf b => [b]
  | Seq l => flat_map leaves l
  end.

(** The reductions as the specification words them. *)
Definition every_leaf_true (n : nested) : Prop :=
  forall b, In b (leaves n) -> b = true.

Definition some_leaf_true (n : nested) : Prop :=
  In true (leaves n).

(** Python's [==] on two payloads: a [bool] never equals a [list]; lists
    are equal when they have the same length and equal elements. *)
Fixpoint py_eq (a b : nested) {struct a} : bool :=
  match a, b with
  | Leaf x, Leaf y => Bool.eqb x y
  | Seq l, Seq m =>
      (fix go (l m : list nested) {struct l} : bool :=
         match l, m with
         | [], [] => true
         | x :: l', y :: m' => py_eq x y && go l' m'
         | _, _ => false
         end) l m
  | _, _ => false
  end.

Section Outcomes.
(** The unit an outcome belongs to; the outcome only stores it. *)
Variable fact : Type.

Record FactCheck : Type := mkFactCheck
  { check_fact : fact; check_result : nested }.

Record FactResult : Type := mkFactResult
  { result_fact : fact; result_result : nested }.

(** [FactCheck.__bool__] *)
Definition FactCheck_bool (c : FactCheck) : bool :=
  match check_result c with
  | Leaf b => b
  | Seq l => all_true l
  end.

(** [FactResult.__bool__] *)
Definition FactResult_bool (r : FactResult) : bool :=
  match result_result r with
  | Leaf b => b
  | Seq l => any_true l
  end.

(** [FactCheck.__eq__] and [FactResult.__eq__]: [self.result == other]. *)
Definition FactCheck_eq (c : FactCheck) (other : nested) : bool :=
  py_eq (check_result c) other.

Definition FactResult_eq (r : FactResult) (other : nested) : bool :=
  py_eq (result_result r) other.
End Outcomes.

(* ===================================================================== *)
(** ** The [str] and [os.path] operations the code calls *)
(* ===================================================================== *)

Module PyStr.

(** [str.isspace] on one character (code points below 256). *)
Definition is_space (c : ascii) : bool :=
  let n := nat_of_ascii c in
  (((9 <=? n) && (n <=? 13)) || ((28 <=? n) && (n <=? 32))
   || (n =? 133) || (n =? 160))%nat.

Definition is_char (sep c : ascii) : bool := Ascii.eqb c sep.

Definition slash : ascii := "/"%char.
Definition newline : ascii := "010"%char.
Definition space : ascii := " "%char.

(** [s.startswith(prefix)] *)
Fixpoint startswith (s prefix : string) : bool :=
  match prefix, s with
  | EmptyString, _ => true
  | String p prefix', String c s' =>
      Ascii.eqb c p && startswith s' prefix'
  | String _ _, EmptyString => false
  end.

(** [s.endswith(c)] for a one-character suffix. *)
Fixpoint endswith_char (s : string) (c : ascii) : bool :=
  match s with
  | EmptyString => false
  | String a EmptyString => Ascii.eqb a c
  | String _ s' => endswith_char s' c
  end.

(** [s[n:]] *)
Fixpoint drop (n : nat) (s : string) : string :=
  match n, s with
  | O, _ => s
  | S n', String _ s' => drop n' s'
  | S _, EmptyString => EmptyString
  end.

Fixpoint lstrip (p : ascii -> bool) (s : string) : string :=
  match s with
  | EmptyString => EmptyString
  | String c s' => if p c then lstrip p s' else s
  end.

Fixpoint rstrip (p : ascii -> bool) (s : string) : string :=
  match s with
  | EmptyString => EmptyString
  | String c s' =>
      match rstrip p s' with
      | EmptyString => if p c then EmptyString else String c EmptyString
      | kept => String c kept
      end
  end.

(** [s.strip()] and [s.strip('/')] *)
Definition strip_by (p : ascii -> bool) (s : string) : string :=
  rstrip p (lstrip p s).
Definition strip (s : string) : string := strip_by is_space s.
Definition strip_slash (s : string) : string := strip_by (is_char slash) s.

(** Cut at every character that satisfies [p]; there is always one piece
    more than there are cuts, as with [s.split(sep)]. *)
Fixpoint split_on (p : ascii -> bool) (s : string) : list string :=
  match s with
  | EmptyString => [EmptyString]
  | String c s' =>
      if p c then EmptyString :: split_on p s'
      else match split_on p s' with
           | [] => [String c EmptyString]
           | piece :: pieces => String c piece :: pieces
           end
  end.

(** [s.split('\n')] *)
Definition split_lines (s : string) : list string :=
  split_on (is_char newline) s.

Definition nonempty (s : string) : bool :=
  match s with EmptyString => false | String _ _ => true end.

(** [s.split()]: runs of whitespace separate, no empty piece is kept. *)
Definition split_ws (s : string) : list string :=
  filter nonempty (split_on is_space s).

(** [s.split(' ', 1)[0]] *)
Fixpoint first_field (s : string) : string :=
  match s with
  | EmptyString => EmptyString
  | String c s' =>
      if is_char space c then EmptyString else String c (first_field s')
  end.

(** [os.path.join(a, b)] of [posixpath]. *)
Definition join (a b : string) : string :=
  if startswith b "/" then b
  else if negb (nonempty a) || endswith_char a slash then a ++ b
  else a ++ "/" ++ b.

(** The first word of a command line: the program it starts. *)
Definition program (command : string) : string := first_field command.

End PyStr.

(* ===================================================================== *)
(** ** Effects: host state, exceptions, issued operations *)
(* ===================================================================== *)

(** The exceptions that occur in the embedded code.  [TypeError] is what
    [raise NotImplemented] produces: [NotImplemented] is a constant, not an
    exception class, and the [raise] statement rejects it. *)
Inductive exn : Type :=
| NoSuchFileError
| ProcessError
| AssertionError
| ValueError
| TypeError
| NotImplementedError.

Inductive res (A : Type) : Type :=
| Ok (a : A)
| Raise (e : exn).
Arguments Ok {A} a.
Arguments Raise {A} e.

(** What a unit can ask of the execution capability. *)
Inductive op : Type :=
| Run (command : string)
| Put (remote_path local_path : string).

Section Monad.
Variables H E : Type.

(** A program runs on a host state, returns or raises, leaves a host
    state and the events it produced, oldest first. *)
Definition M (A : Type) : Type := H -> res A * H * list E.

Definition ret {A} (a : A) : M A := fun h => (Ok a, h, []).

Definition raise {A} (e : exn) : M A := fun h => (Raise e, h, []).

Definition bind {A B} (m : M A) (k : A -> M B) : M B :=
  fun h =>
    match m h with
    | (Ok a, h1, t1) =>
        match k a h1 with
        | (r, h2, t2) => (r, h2, t1 ++ t2)
        end
    | (Raise e, h1, t1) => (Raise e, h1, t1)
    end.

Definition emit (e : E) : M unit := fun h => (Ok tt, h, [e]).

(** [try: m  except NoSuchFileError: handler] *)
Definition except_NoSuchFileError {A} (m handler : M A) : M A :=
  fun h =>
    match m h with
    | (Raise NoSuchFileError, h1, t1) =>
        match handler h1 with
        | (r, h2, t2) => (r, h2, t1 ++ t2)
        end
    | other => other
    end.

(** [assert cond] *)
Definition assert (cond : bool) : M unit :=
  if cond then ret tt else raise AssertionError.

(** A [for] loop that appends one item per element, or raises. *)
Fixpoint for_each {A B} (f : A -> M B) (l : list A) : M (list B) :=
  match l with
  | [] => ret []
  | x :: rest =>
      bind (f x) (fun y => bind (for_each f rest) (fun ys => ret (y :: ys)))
  end.
End Monad.

Arguments ret {H E A} a.
Arguments raise {H E A} e.
Arguments bind {H E A B} m k.
Arguments emit {H E} e.
Arguments except_NoSuchFileError {H E A} m handler.
Arguments assert {H E} cond.
Arguments for_each {H E A B} f l.

Declare Scope prog_scope.
Delimit Scope prog_scope with prog.
Notation "x <- m ;; k" := (bind m (fun x => k))
  (at level 61, m at next level, right associativity) : prog_scope.
Notation "m ;;; k" := (bind m (fun _ => k))
  (at level 61, right associativity) : prog_scope.

(** Events of one program renamed: used to run a unit's own code inside the
    engine, whose events also record which method it invoked. *)
Definition lift {H E F A} (f : E -> F) (m : M H E A) : M H F A :=
  fun h => match m h with (r, h1, t) => (r, h1, map f t) end.

(** The execution capability ([connectors], not under [src/]): [run]
    executes a command and returns its output, [put] transfers a file.
    [check=False] keeps a non-zero exit from raising; [no_such_file=True]
    asks for [NoSuchFileError] when the path is missing. *)
Record Host (H : Type) : Type := mkHost
  { host_run : string -> forall (check no_such_file : bool), H -> res string * H;
    host_put : string -> string -> H -> res unit * H }.

Section HostCalls.
Context {H : Type} (host : Host H).

(** [await host.run(command, check=..., no_such_file=...)] *)
Definition run (command : string) (check no_such_file : bool)
  : M H op string :=
  fun h =>
    match host_run host command check no_such_file h with
    | (r, h1) => (r, h1, [Run command])
    end.

(** [await host.put(remote_path, local_path)] *)
Definition put (remote_path local_path : string) : M H op unit :=
  fun h =>
    match host_put host remote_path local_path h with
    | (r, h1) => (r, h1, [Put remote_path local_path])
    end.
End HostCalls.

(* ===================================================================== *)
(** ** The engine: [Fact.check] and [Fact.apply] (facts/abstract.py) *)
(* ===================================================================== *)

Inductive method : Type := m_enquire | m_enforce.

(** What the engine observably does: operations a unit issues on the host,
    and the abstract methods the engine invokes. *)
Inductive event : Type :=
| Issued (o : op)
| Invoked (m : method).

Section Engine.
Variable H : Type.

(** A unit: the two abstract methods of [class Fact], already given the
    host they run on. *)
Record Fact : Type := mkFact
  { enquire : M H op nested;
    enforce : M H op nested }.

(** [Fact.check]; [logging.info] only formats the outcome. *)
Definition check (self : Fact) : M H event (FactCheck Fact) :=
  (emit (Invoked m_enquire) ;;;
   result <- lift Issued (enquire self) ;;
   ret (mkFactCheck self result))%prog.

(** [Fact.apply] *)
Definition apply (self : Fact) : M H event (FactResult Fact) :=
  (checked <- check self ;;
   if negb (FactCheck_bool checked) then
     emit (Invoked m_enforce) ;;;
     result <- lift Issued (enforce self) ;;
     ret (mkFactResult self result)
   else
     ret (mkFactResult self (Leaf false)))%prog.

(** [apply] invoked twice in succession: the second call starts on the
    host state the first one left, and is not made if the first raised. *)
Definition apply_twice (self : Fact)
  : M H event (FactResult Fact * FactResult Fact) :=
  (first <- apply self ;;
   second <- apply self ;;
   ret (first, second))%prog.
End Engine.

Arguments mkFact {H} enquire enforce.
Arguments enquire {H} f.
Arguments enforce {H} f.
Arguments check {H} self.
Arguments apply {H} self.
Arguments apply_twice {H} self.

(** Whether a trace shows the engine invoking [enforce]. *)
Definition invokes_enforce (t : list event) : Prop := In (Invoked m_enforce) t.

(* ===================================================================== *)
(** ** Package units (facts/apt.py) *)
(* ===================================================================== *)

Module Apt.
Section Apt.
Context {H : Type} (host : Host H).

(** [re.match(pattern, line)] of the standard library, as a test. *)
Variable re_match : string -> string -> bool.

Record AptPresent : Type := mkAptPresent
  { name : string; sudo : bool }.

Record AptAbsent : Type := mkAptAbsent
  { base : AptPresent; purge : bool }.

Record AptUpdated : Type := mkAptUpdated
  { names : list string }.

Definition AptPresent_enquire (self : AptPresent) : M H op nested :=
  (status <- run host ("dpkg -l " ++ name self) false false ;;
   ret (Leaf (existsb
                (re_match ("ii\s+" ++ name self ++ "(\:amd64)?\s+"))
                (PyStr.split_lines status))))%prog.

Definition AptPresent_enforce (self : AptPresent) : M H op nested :=
  (if sudo self then
     run host ("sudo apt-get install -y " ++ name self) true false ;;;
     ret (Leaf true)
   else
     run host ("apt-get install -y " ++ name self) true false ;;;
     ret (Leaf true))%prog.

(** [not await super().enquire(host)] *)
Definition AptAbsent_enquire (self : AptAbsent) : M H op nested :=
  (present <- AptPresent_enquire (base self) ;;
   ret (Leaf (negb (all_true_of present))))%prog.

Definition AptAbsent_enforce (self : AptAbsent) : M H op nested :=
  let purge := if purge self then "--purge" else "" in
  (if sudo (base self) then
     run host ("apt-get remove " ++ purge ++ " -y " ++ name (base self))
       true false ;;;
     ret (Leaf true)
   else
     run host ("sudo apt-get remove " ++ purge ++ " -y " ++ name (base self))
       true false ;;;
     ret (Leaf true))%prog.

Definition AptUpdated_enquire (self : AptUpdated) : M H op nested :=
  ret (Leaf false).

Definition AptUpdated_enforce (self : AptUpdated) : M H op nested :=
  (run host "sudo apt-get update" true false ;;;
   ret (Leaf true))%prog.

(** The units as the engine sees them. *)
Definition fact_of_AptPresent (self : AptPresent) : Fact H :=
  mkFact (AptPresent_enquire self) (AptPresent_enforce self).
Definition fact_of_AptAbsent (self : AptAbsent) : Fact H :=
  mkFact (AptAbsent_enquire self) (AptAbsent_enforce self).
Definition fact_of_AptUpdated (self : AptUpdated) : Fact H :=
  mkFact (AptUpdated_enquire self) (AptUpdated_enforce self).
End Apt.
End Apt.

(* ===================================================================== *)
(** ** File and directory units (modules/files.py) *)
(* ===================================================================== *)

(** The Python values that occur as a hash: [None] (no hash known),
    [False] (what [get_hash] returns for a missing file), [bytes], [str]. *)
Inductive pyobj : Type :=
| PNone
| PFalse
| PBytes (s : string)
| PStr (s : string).

(** [a == b]: values of different types are never equal. *)
Definition pyobj_eq (a b : pyobj) : bool :=
  match a, b with
  | PNone, PNone => true
  | PFalse, PFalse => true
  | PBytes x, PBytes y => String.eqb x y
  | PStr x, PStr y => String.eqb x y
  | _, _ => false
  end.

(** Truth value, as [if self.remote_hash:] takes it. *)
Definition truthy (a : pyobj) : bool :=
  match a with
  | PNone | PFalse => false
  | PBytes s | PStr s => PyStr.nonempty s
  end.

(** A [dict] with [str] keys: insertion ordered, a key assigned again keeps
    its place and takes the new value. *)
Definition dict (V : Type) : Type := list (string * V).

Fixpoint dict_set {V} (key : string) (value : V) (d : dict V) : dict V :=
  match d with
  | [] => [(key, value)]
  | (k, v) :: rest =>
      if String.eqb k key then (k, value) :: rest
      else (k, v) :: dict_set key value rest
  end.

Fixpoint dict_get {V} (key : string) (d : dict V) : option V :=
  match d with
  | [] => None
  | (k, v) :: rest => if String.eqb k key then Some v else dict_get key rest
  end.

Definition dict_keys {V} (d : dict V) : list string := map fst d.

(** The local directory tree as [os.walk] sees it: a directory lists its
    entries by name, in the order [scandir] gives them. *)
#[local] Unset Elimination Schemes.
Inductive ltree : Type :=
| LFile
| LDir (entries : list (string * ltree)).
#[local] Set Elimination Schemes.

(** Induction over [ltree] with the hypothesis for every entry. *)
Section LtreeInd.
Variable P : ltree -> Prop.
Hypothesis HFile : P LFile.
Hypothesis HDir :
  forall entries, Forall (fun e => P (snd e)) entries -> P (LDir entries).

Fixpoint ltree_rect_entries (t : ltree) : P t :=
  match t with
  | LFile => HFile
  | LDir entries =>
      HDir ((fix go (es : list (string * ltree))
               : Forall (fun e => P (snd e)) es :=
               match es with
               | [] => Forall_nil _
               | e :: rest =>
                   Forall_cons e (ltree_rect_entries (snd e)) (go rest)
               end) entries)
  end.
End LtreeInd.

Definition is_ldir (t : ltree) : bool :=
  match t with LDir _ => true | LFile => false end.

Definition dirnames (entries : list (string * ltree)) : list string :=
  map fst (filter (fun e => is_ldir (snd e)) entries).

Definition filenames (entries : list (string * ltree)) : list string :=
  map fst (filter (fun e => negb (is_ldir (snd e))) entries).

(** [os.walk(top)], top down: the triple of [top] first, then the walk of
    each sub-directory in turn; nothing when [top] is not a directory. *)
Fixpoint os_walk (top : string) (t : ltree)
  : list (string * list string * list string) :=
  match t with
  | LFile => []
  | LDir entries =>
      (top, dirnames entries, filenames entries)
      :: (fix below (es : list (string * ltree)) :=
            match es with
            | [] => []
            | (n, child) :: rest =>
                os_walk (PyStr.join top n) child ++ below rest
            end) entries
  end.

(** Entry names as a file system gives them: not empty, no ['/']. *)
Fixpoint no_slash (s : string) : bool :=
  match s with
  | EmptyString => true
  | String c s' => negb (PyStr.is_char PyStr.slash c) && no_slash s'
  end.

Definition valid_name (n : string) : bool := PyStr.nonempty n && no_slash n.

Fixpoint valid_tree (t : ltree) : bool :=
  match t with
  | LFile => true
  | LDir entries =>
      (fix all (es : list (string * ltree)) : bool :=
         match es with
         | [] => true
         | (n, child) :: rest => valid_name n && valid_tree child && all rest
         end) entries
  end.

(** The local side ([os], [okonf.utils], not under [src/]): the tree found
    at a path, the two [os.path] tests, and the hash of a local file. *)
Record LocalFS : Type := mkLocalFS
  { tree_at : string -> ltree;
    isfile : string -> bool;
    isdir : string -> bool;
    get_local_file_hash : string -> res pyobj }.

(** The unit classes that [DirectoryCopy] is built from, with the fields
    their [__init__] stores. *)
Inductive module : Type :=
| FilePresent (remote_path : string)
| FileAbsent (remote_path : string)
| FileHash (remote_path : string) (hash : pyobj)
| FileCopy (remote_path local_path : string) (remote_hash : pyobj)
| DirectoryPresent (remote_path : string)
| DirectoryAbsent (remote_path : string).

Record DirectoryCopy : Type := mkDirectoryCopy
  { dc_remote_path : string; dc_local_path : string }.

(** A plan is a sequence of stages, a stage a list of units. *)
Definition stage : Type := list module.
Definition plan : Type := list stage.

Definition of_res {H E A} (r : res A) : M H E A :=
  match r with Ok a => ret a | Raise e => raise e end.

Section Files.
Context {H : Type} (host : Host H) (fs : LocalFS).

Definition FilePresent_check (remote_path : string) : M H op bool :=
  (output <- run host ("ls -d " ++ remote_path) false false ;;
   ret (PyStr.nonempty output))%prog.

Definition FilePresent_apply (remote_path : string) : M H op bool :=
  (run host ("touch " ++ remote_path) true false ;;; ret true)%prog.

Definition FileAbsent_check (remote_path : string) : M H op bool :=
  (present <- FilePresent_check remote_path ;; ret (negb present))%prog.

Definition FileAbsent_apply (remote_path : string) : M H op bool :=
  (run host ("rm " ++ remote_path) true false ;;; ret true)%prog.

(** [FileHash.get_hash] *)
Definition get_hash (remote_path : string) : M H op pyobj :=
  except_NoSuchFileError
    (output <- run host ("sha256sum " ++ remote_path) true true ;;
     ret (PBytes (PyStr.first_field output)))%prog
    (ret PFalse).

Definition FileHash_check (remote_path : string) (hash : pyobj)
  : M H op bool :=
  (remote_hash <- get_hash remote_path ;;
   ret (pyobj_eq remote_hash hash))%prog.

(** [raise NotImplemented] *)
Definition FileHash_apply (remote_path : string) (hash : pyobj)
  : M H op bool :=
  raise TypeError.

Definition FileCopy_check (remote_path local_path : string)
    (remote_hash : pyobj) : M H op bool :=
  (local_hash <- of_res (get_local_file_hash fs local_path) ;;
   if truthy remote_hash then ret (pyobj_eq local_hash remote_hash)
   else FileHash_check remote_path local_hash)%prog.

Definition FileCopy_apply (remote_path local_path : string)
    (remote_hash : pyobj) : M H op bool :=
  (put host remote_path local_path ;;; ret true)%prog.

Definition DirectoryPresent_check (remote_path : string) : M H op bool :=
  (output <- run host ("ls -d " ++ remote_path) false false ;;
   ret (PyStr.nonempty output))%prog.

Definition DirectoryPresent_apply (remote_path : string) : M H op bool :=
  (run host ("mkdir -p " ++ remote_path) true false ;;; ret true)%prog.

Definition DirectoryAbsent_check (remote_path : string) : M H op bool :=
  (present <- DirectoryPresent_check remote_path ;; ret (negb present))%prog.

Definition DirectoryAbsent_apply (remote_path : string) : M H op bool :=
  (run host ("rmdir " ++ remote_path) true false ;;; ret true)%prog.

(** Method dispatch on the class of the unit. *)
Definition module_check (m : module) : M H op bool :=
  match m with
  | FilePresent p => FilePresent_check p
  | FileAbsent p => FileAbsent_check p
  | FileHash p h => FileHash_check p h
  | FileCopy p l h => FileCopy_check p l h
  | DirectoryPresent p => DirectoryPresent_check p
  | DirectoryAbsent p => DirectoryAbsent_check p
  end.

Definition module_apply (m : module) : M H op bool :=
  match m with
  | FilePresent p => FilePresent_apply p
  | FileAbsent p => FileAbsent_apply p
  | FileHash p h => FileHash_apply p h
  | FileCopy p l h => FileCopy_apply p l h
  | DirectoryPresent p => DirectoryPresent_apply p
  | DirectoryAbsent p => DirectoryAbsent_apply p
  end.
End Files.

(** *** [DirectoryCopy] *)

(** The loop of [info_files_hash] over the lines of the output: an empty
    line is skipped, [hash, path = line.split()] raises [ValueError] unless
    the line has exactly two fields. *)
Fixpoint parse_hash_lines (lines : list string) (result : dict string)
  : res (dict string) :=
  match lines with
  | [] => Ok result
  | line :: rest =>
      if negb (PyStr.nonempty line) then parse_hash_lines rest result
      else match PyStr.split_ws line with
           | [hash; path] => parse_hash_lines rest (dict_set path hash result)
           | _ => Raise ValueError
           end
  end.

Section DirectoryCopy.
Context {H : Type} (host : Host H) (fs : LocalFS).
Variable self : DirectoryCopy.

Definition info_files_hash : M H op (dict string) :=
  except_NoSuchFileError
    (let command :=
       ("find " ++ dc_remote_path self
        ++ " -type f -exec sha256sum {} +")%string in
     output <- run host command true true ;;
     of_res (parse_hash_lines
               (PyStr.split_lines (PyStr.strip output)) []))%prog
    (ret []).

Definition info_dirs_present : M H op (list string) :=
  except_NoSuchFileError
    (let command :=
       ("find " ++ dc_remote_path self ++ " -type d")%string in
     output <- run host command true true ;;
     ret (PyStr.split_lines (PyStr.strip output)))%prog
    (ret []).

Definition _get_remote_path (path : string) : M H op string :=
  (assert (PyStr.startswith path (dc_local_path self)) ;;;
   let rel_path :=
     PyStr.strip_slash (PyStr.drop (length (dc_local_path self)) path) in
   ret (PyStr.join (dc_remote_path self) rel_path))%prog.

Definition _get_local_path (path : string) : M H op string :=
  (assert (PyStr.startswith path (dc_remote_path self)) ;;;
   let rel_path :=
     PyStr.strip_slash (PyStr.drop (length (dc_remote_path self)) path) in
   ret (PyStr.join (dc_local_path self) rel_path))%prog.

(** The body of the loop over [os.walk]: what one triple adds to
    [dirs_to_create] and to [files_to_copy]. *)
Definition walk_body (existing_files : dict string)
    (triple : string * list string * list string)
  : M H op (stage * stage) :=
  let '(root, dirs, files) := triple in
  (remote_root <- _get_remote_path root ;;
   ret (map (fun dirname =>
               DirectoryPresent (PyStr.join remote_root dirname)) dirs,
        map (fun filename =>
               let remote_path := PyStr.join remote_root filename in
               FileCopy remote_path (PyStr.join root filename)
                 match dict_get remote_path existing_files with
                 | Some hash => PStr hash
                 | None => PNone
                 end) files))%prog.

(** The bodies of the two removal loops. *)
Definition file_removal_body (filepath : string) : M H op stage :=
  (local_path <- _get_local_path filepath ;;
   ret (if negb (isfile fs local_path) then [FileAbsent filepath] else []))%prog.

Definition dir_removal_body (dirname : string) : M H op stage :=
  (local_path <- _get_local_path dirname ;;
   ret (if negb (isdir fs local_path) then [DirectoryAbsent dirname] else []))%prog.

Definition submodules : M H op (plan * plan) :=
  (existing_files <- info_files_hash ;;
   created <- for_each (walk_body existing_files)
                (os_walk (dc_local_path self)
                   (tree_at fs (dc_local_path self))) ;;
   let dirs_to_create := List.concat (map fst created) in
   let files_to_copy := List.concat (map snd created) in
   removed <- for_each file_removal_body (dict_keys existing_files) ;;
   let files_to_remove := List.concat removed in
   existing_dirs <- info_dirs_present ;;
   removed_dirs <- for_each dir_removal_body existing_dirs ;;
   let dirs_to_remove := List.concat removed_dirs in
   ret ([dirs_to_create; files_to_copy],
        [files_to_remove; dirs_to_remove]))%prog.
End DirectoryCopy.

(* ===================================================================== *)
(** ** Reading the outcome of a run, and classes of operations *)
(* ===================================================================== *)

Definition value_of {H E A} (x : res A * H * list E) : res A := fst (fst x).
Definition state_of {H E A} (x : res A * H * list E) : H := snd (fst x).
Definition trace_of {H E A} (x : res A * H * list E) : list E := snd x.

Definition res_map {A B} (f : A -> B) (r : res A) : res B :=
  match r with Ok a => Ok (f a) | Raise e => Raise e end.

Definition one_of (names : list string) (s : string) : bool :=
  existsb (String.eqb s) names.

(** Listing, hashing and searching only read the host. *)
Definition read_oriented (o : op) : bool :=
  match o with
  | Run command => one_of ["ls"; "sha256sum"; "find"] (PyStr.program command)
  | Put _ _ => false
  end.

(** A transfer, or a command that creates or removes something. *)
Definition write_class (o : op) : bool :=
  match o with
  | Run command =>
      one_of ["touch"; "rm"; "mkdir"; "rmdir"] (PyStr.program command)
  | Put _ _ => true
  end.

(** The units named by the check-purity property. *)
Definition inspected_class (m : module) : bool :=
  match m with
  | FilePresent _ | FileHash _ _ | FileCopy _ _ _ | DirectoryPresent _ => true
  | FileAbsent _ | DirectoryAbsent _ => false
  end.

(* ===================================================================== *)
(** ** The directory diff in the words of the specification *)
(* ===================================================================== *)

(** [dir_at top t root entries]: in the tree [t] found at path [top], the
    directory at path [root] lists [entries]. *)
Inductive dir_at : string -> ltree -> string -> list (string * ltree) -> Prop :=
| dir_here top entries : dir_at top (LDir entries) top entries
| dir_below top entries n child root es :
    In (n, child) entries ->
    dir_at (PyStr.join top n) child root es ->
    dir_at top (LDir entries) root es.

(** The path mapping without its assertion. *)
Definition remote_of (self : DirectoryCopy) (path : string) : string :=
  PyStr.join (dc_remote_path self)
    (PyStr.strip_slash (PyStr.drop (length (dc_local_path self)) path)).

Definition local_of (self : DirectoryCopy) (path : string) : string :=
  PyStr.join (dc_local_path self)
    (PyStr.strip_slash (PyStr.drop (length (dc_remote_path self)) path)).

(** [existing_files.get(remote_path)] as the value [FileCopy] stores. *)
Definition known_hash (existing_files : dict string) (remote_path : string)
  : pyobj :=
  match dict_get remote_path existing_files with
  | Some hash => PStr hash
  | None => PNone
  end.

(** What the loop bodies contribute once their assertion has passed. *)
Definition created_by (self : DirectoryCopy) (existing_files : dict string)
    (triple : string * list string * list string) : stage * stage :=
  let '(root, dirs, files) := triple in
  (map (fun dirname =>
          DirectoryPresent (PyStr.join (remote_of self root) dirname)) dirs,
   map (fun filename =>
          FileCopy (PyStr.join (remote_of self root) filename)
            (PyStr.join root filename)
            (known_hash existing_files
               (PyStr.join (remote_of self root) filename))) files).

Definition file_removed_by (self : DirectoryCopy) (fs : LocalFS)
    (filepath : string) : stage :=
  if negb (isfile fs (local_of self filepath)) then [FileAbsent filepath]
  else [].


(** The four stages, unit by unit. *)
Definition is_dir_to_create (self : DirectoryCopy) (t : ltree) (u : module)
  : Prop :=
  exists root es n,
    dir_at (dc_local_path self) t root es /\ In n (dirnames es) /\
    u = DirectoryPresent (PyStr.join (remote_of self root) n).

Definition is_file_to_copy (self : DirectoryCopy) (t : ltree)
    (existing_files : dict string) (u : module) : Prop :=
  exists root es n,
    dir_at (dc_local_path self) t root es /\ In n (filenames es) /\
    u = FileCopy (PyStr.join (remote_of self root) n) (PyStr.join root n)
          (known_hash existing_files (PyStr.join (remote_of self root) n)).



(** Every path of a remote enumeration lies under the remote root. *)
Definition under (root : string) (paths : list string) : Prop :=
  forall p, In p paths -> PyStr.startswith p root = true.

(* ===================================================================== *)
(** ** The unit contract that makes a second [apply] a no-op *)
(* ===================================================================== *)

Section Contract.
Context {H : Type}.

(** On [h], inspection returns and reports the state present. *)
Definition present (f : Fact H) (h : H) : Prop :=
  exists v h' t, enquire f h = (Ok v, h', t) /\ all_true_of v = true.

(** Inspecting a present state leaves it present. *)
Definition repeatable (f : Fact H) : Prop :=
  forall h v h' t,
    enquire f h = (Ok v, h', t) -> all_true_of v = true -> present f h'.

(** Mutation reaches the state that inspection tests. *)
Definition establishes (f : Fact H) : Prop :=
  forall h v h' t, enforce f h = (Ok v, h', t) -> present f h'.

(** The second of two successive [apply] calls returns an outcome that
    evaluates to false. *)
Definition second_apply_unchanged (f : Fact H) (h : H) : Prop :=
  exists first second h' t,
    apply_twice f h = (Ok (first, second), h', t) /\
    FactResult_bool second = false.
End Contract.

(* ===================================================================== *)
(** ** Concrete hosts and trees for the examples *)
(* ===================================================================== *)

Module Examples.

(** A host that answers from a table of commands; a command not in the
    table finds no such file.  It has no state of its own. *)
Definition scripted (table : list (string * string)) : Host unit :=
  mkHost
    (fun command _ _ h =>
       match dict_get command table with
       | Some output => (Ok output, h)
       | None => (Raise NoSuchFileError, h)
       end)
    (fun _ _ h => (Ok tt, h)).

(** A host whose state is the list of paths that exist on it, and that
    understands [ls -d], [mkdir -p] and [touch]. *)
Definition after (prefix command : string) : option string :=
  if PyStr.startswith command prefix
  then Some (PyStr.drop (length prefix) command)
  else None.

Definition shell_run (command : string) (check no_such_file : bool)
    (paths : list string) : res string * list string :=
  match after "ls -d " command with
  | Some p =>
      if existsb (String.eqb p) paths then (Ok p, paths)
      else if check then (Raise ProcessError, paths) else (Ok "", paths)
  | None =>
      match after "mkdir -p " command, after "touch " command with
      | Some p, _ | None, Some p => (Ok "", p :: paths)
      | None, None => (Raise ProcessError, paths)
      end
  end.

Definition shell : Host (list string) :=
  mkHost shell_run (fun _ _ paths => (Ok tt, paths)).

(** [DirectoryPresent] taken as a unit of the engine: its [check] is the
    inspection, its [apply] the mutation. *)
Definition no_local : LocalFS :=
  mkLocalFS (fun _ => LFile) (fun _ => false) (fun _ => false)
    (fun _ => Raise NoSuchFileError).

Definition directory_fact (remote_path : string) : Fact (list string) :=
  mkFact
    (present <- DirectoryPresent_check shell remote_path ;;
     ret (Leaf present))%prog
    (changed <- DirectoryPresent_apply shell remote_path ;;
     ret (Leaf changed))%prog.

(** The trees of the diff example: locally [a/] and [a/f.txt] under
    [/src]; remotely [b/g.txt] and the empty [c/] under [/dst]. *)
Definition local_tree : ltree :=
  LDir [("a", LDir [("f.txt", LFile)])].

Definition local_fs : LocalFS :=
  mkLocalFS
    (fun path => if String.eqb path "/src" then local_tree else LFile)
    (fun path => String.eqb path "/src/a/f.txt")
    (fun path => one_of ["/src"; "/src/"; "/src/a"; "/src/a/"] path)
    (fun path =>
       if String.eqb path "/src/a/f.txt" then Ok (PBytes "98ea")
       else Raise NoSuchFileError).

Definition nl : string := String PyStr.newline EmptyString.

Definition remote_host : Host unit :=
  scripted
    [("find /dst -type f -exec sha256sum {} +",
      ("c0ff  /dst/b/g.txt" ++ nl)%string);
     ("find /dst -type d",
      ("/dst" ++ nl ++ "/dst/b" ++ nl ++ "/dst/c" ++ nl)%string)].

Definition mirror : DirectoryCopy := mkDirectoryCopy "/dst" "/src".

(** A host on which [apt-get update] succeeds. *)
Definition apt_host : Host unit := scripted [("sudo apt-get update", "")].

End Examples.

(* ===================================================================== *)
(** ** Upgrades (facts/apt.py, lines 4-18 and 77-100) *)
(* ===================================================================== *)

(** [dict(pairs)]: the pairs assigned in order, a later one for the same
    key replacing the value of the earlier. *)
Definition dict_of_list {V} (pairs : list (string * V)) : dict V :=
  fold_left (fun d kv => dict_set (fst kv) (snd kv) d) pairs [].

Module AptUpgrade.

Definition RE_UPGRADEABLE : string :=
  "([^\/]+)\/([^\s]+)\s+([^\s]+)\s+(\w+)\s+\[upgradable from:\s+([^\s]+)\]$".

(** The value that [parse_upgradeable] yields beside a package name: a
    [dict] with these four keys. *)
Record upgrade : Type := mkUpgrade
  { source : string; next_version : string; arch : string; version : string }.

Record AptUpgraded : Type := mkAptUpgraded
  { names : list string }.

Definition listing_header : string :=
  "Listing..." ++ String PyStr.newline EmptyString.

Section AptUpgrade.
Context {H : Type} (host : Host H).

(** [re.match(pattern, line)] of the standard library, with the five
    groups of the match when there is one. *)
Variable re_groups :
  string -> string -> option (string * string * string * string * string).

(** The generator, as the list of what it yields. *)
Fixpoint parse_upgradeable (lines : list string) : list (string * upgrade) :=
  match lines with
  | [] => []
  | line :: rest =>
      match re_groups RE_UPGRADEABLE line with
      | Some (name, source, next_version, arch, version) =>
          (name, mkUpgrade source next_version arch version)
          :: parse_upgradeable rest
      | None => parse_upgradeable rest
      end
  end.

(** [status[len('Listing...\n'):]] when [status] starts with that line. *)
Definition without_header (status : string) : string :=
  if PyStr.startswith status listing_header
  then PyStr.drop (length listing_header) status
  else status.

Definition info (self : AptUpgraded) : M H op (dict upgrade) :=
  (let names_str := String.concat " " (names self) in
   status <- run host ("apt list --upgradeable " ++ names_str) true false ;;
   ret (dict_of_list
          (parse_upgradeable (PyStr.split_lines (without_header status)))))%prog.

Definition AptUpgraded_enquire (self : AptUpgraded) : M H op nested :=
  (upgradeable <- info self ;;
   ret (Leaf (Nat.eqb (List.length upgradeable) 0)))%prog.

Definition AptUpgraded_enforce (self : AptUpgraded) : M H op nested :=
  (run host "sudo apt-get upgrade" true false ;;;
   ret (Leaf true))%prog.

Definition fact_of_AptUpgraded (self : AptUpgraded) : Fact H :=
  mkFact (AptUpgraded_enquire self) (AptUpgraded_enforce self).
End AptUpgrade.
End AptUpgrade.

(* ===================================================================== *)
(** ** [FileContent.check] (modules/files.py, lines 88-97) *)
(* ===================================================================== *)

Section FileContent.
Context {H : Type} (host : Host H).

(** [sha256(content).hexdigest()] of [hashlib]. *)
Variable sha256_hexdigest : string -> string.

Definition FileContent_check (remote_path content : string) : M H op bool :=
  let content_hash := PBytes (sha256_hexdigest content) in
  FileHash_check host remote_path content_hash.
End FileContent.

(* ===================================================================== *)
(** ** Words for the further properties *)
(* ===================================================================== *)

(** The commands of [DirectoryCopy]. *)
Definition files_command (self : DirectoryCopy) : string :=
  "find " ++ dc_remote_path self ++ " -type f -exec sha256sum {} +".

Definition dirs_command (self : DirectoryCopy) : string :=
  "find " ++ dc_remote_path self ++ " -type d".

(** A line that [info_files_hash] accepts: empty, or of two fields. *)
Definition well_formed_line (line : string) : bool :=
  negb (PyStr.nonempty line)
  || Nat.eqb (List.length (PyStr.split_ws line)) 2.

(** The [(path, hash)] pairs of the lines of two fields, in order. *)
Fixpoint line_entries (lines : list string) : list (string * string) :=
  match lines with
  | [] => []
  | line :: rest =>
      match PyStr.split_ws line with
      | [hash; path] => (path, hash) :: line_entries rest
      | _ => line_entries rest
      end
  end.

(** The value of the last pair with the given key. *)
Fixpoint last_value {V} (key : string) (pairs : list (string * V))
  : option V :=
  match pairs with
  | [] => None
  | (k, v) :: rest =>
      match last_value key rest with
      | Some later => Some later
      | None => if String.eqb k key then Some v else None
      end
  end.

(** A root path written without a trailing ['/'], and a relative path
    written without a leading or trailing one. *)
Definition plain_root (s : string) : bool :=
  PyStr.nonempty s && negb (PyStr.endswith_char s PyStr.slash).

Definition plain_relative (s : string) : bool :=
  PyStr.nonempty s && negb (PyStr.startswith s "/")
  && negb (PyStr.endswith_char s PyStr.slash).

(** The one operation that the [apply] of a unit issues; [FileHash] has
    none. *)
Definition apply_op (m : module) : option op :=
  match m with
  | FilePresent p => Some (Run ("touch " ++ p))
  | FileAbsent p => Some (Run ("rm " ++ p))
  | FileHash _ _ => None
  | FileCopy p l _ => Some (Put p l)
  | DirectoryPresent p => Some (Run ("mkdir -p " ++ p))
  | DirectoryAbsent p => Some (Run ("rmdir " ++ p))
  end.

(** What the host answers to an operation issued with the default flags
    ([check=True], [no_such_file=False]), the output dropped. *)
Definition perform {H} (host : Host H) (o : op) (h : H) : res unit * H :=
  match o with
  | Run command =>
      match host_run host command true false h with
      | (r, h1) => (res_map (fun _ => tt) r, h1)
      end
  | Put remote_path local_path => host_put host remote_path local_path h
  end.

(** The unit that asserts the opposite. *)
Definition present_form (m : module) : module :=
  match m with
  | FileAbsent p => FilePresent p
  | DirectoryAbsent p => DirectoryPresent p
  | other => other
  end.

Definition is_absent_class (m : module) : bool :=
  match m with
  | FileAbsent _ | DirectoryAbsent _ => true
  | _ => false
  end.

(** A program that asks nothing of the host: no operation issued, the
    host state as it was, whether it returns or raises. *)
Definition quiet {H E A} (m : M H E A) : Prop :=
  forall h, trace_of (m h) = [] /\ state_of (m h) = h.

(** Hash values of Python type [bytes]. *)
Definition is_bytes (a : pyobj) : bool :=
  match a with PBytes _ => true | _ => false end.

Module MoreExamples.

(** A host on which every command fails with the given exception. *)
Definition failing (e : exn) : Host unit :=
  mkHost (fun _ _ _ h => (Raise e, h)) (fun _ _ h => (Raise e, h)).

(** Matching for the upgrade listing, enough for the example: a line
    counts when it has the six fields of an upgradable entry. *)
Definition six_fields (pattern line : string)
  : option (string * string * string * string * string) :=
  match PyStr.split_ws line with
  | [pkg; next; arch; _; _; old] => Some (pkg, "", next, arch, old)
  | _ => None
  end.

Definition nl : string := String PyStr.newline EmptyString.

Definition upgrade_host : Host unit :=
  Examples.scripted
    [("apt list --upgradeable vim curl",
      ("Listing..." ++ nl
       ++ "vim/stable 9.1 amd64 [upgradable from: 9.0]" ++ nl)%string);
     ("apt list --upgradeable ", ("Listing..." ++ nl)%string);
     ("sudo apt-get upgrade", "")].

(** A remote file whose name has a space in it. *)
Definition spaced_host : Host unit :=
  Examples.scripted
    [("find /dst -type f -exec sha256sum {} +",
      ("c0ff  /dst/my file.txt" ++ nl)%string)].

(** A remote path that is a regular file: no directory is found. *)
Definition file_host : Host unit :=
  Examples.scripted
    [("find /dst -type f -exec sha256sum {} +", ("c0ff  /dst" ++ nl)%string);
     ("find /dst -type d", "");
     ("sha256sum /dst", "c0ff  /dst")].



End MoreExamples.

(* ===================================================================== *)
(** * Properties *)
(* ===================================================================== *)

Unset Implicit Arguments.

(** Case analysis on what the host answers to the command at hand: an
    output, or one of the exceptions. *)
Ltac case_run host :=
  match goal with
  | |- context [host_run host ?c ?k ?n ?h] =>
      destruct (host_run host c k n h) as [[? | []] ?]
  end.

(** ** Aggregation *)

(** The three branches of the loop in [all_true], as the source has them. *)
Lemma all_true_nil : all_true [] = true.
Proof. reflexivity. Qed.

Lemma all_true_seq element rest :
  all_true (Seq element :: rest)
  = if negb (all_true element) then false else all_true rest.
Proof. reflexivity. Qed.

Lemma all_true_leaf element rest :
  all_true (Leaf element :: rest)
  = if negb element then false else all_true rest.
Proof. reflexivity. Qed.

(** And those of [any_true]. *)
Lemma any_true_nil : any_true [] = false.
Proof. reflexivity. Qed.

Lemma any_true_seq element rest :
  any_true (Seq element :: rest)
  = if negb (any_true element) then true else any_true rest.
Proof. reflexivity. Qed.

Lemma any_true_leaf element rest :
  any_true (Leaf element :: rest)
  = if element then true else any_true rest.
Proof. reflexivity. Qed.

Lemma all_true_cons x rest :
  all_true (x :: rest) = all_true_of x && all_true rest.
Proof.
  destruct x as [b | l].
  - rewrite all_true_leaf. destruct b; reflexivity.
  - rewrite all_true_seq. fold (all_true l).
    change (all_true_of (Seq l)) with (all_true l).
    destruct (all_true l); reflexivity.
Qed.

Lemma all_true_of_leaves n : all_true_of n = forallb id (leaves n).
Proof.
  induction n as [b | l IH] using nested_rect_list.
  - simpl. now rewrite andb_true_r.
  - change (all_true_of (Seq l)) with (all_true l).
    change (leaves (Seq l)) with (flat_map leaves l).
    induction IH as [| x rest Hx _ IHrest].
    + reflexivity.
    + rewrite all_true_cons, Hx, IHrest. simpl.
      now rewrite forallb_app.
Qed.

Lemma all_true_iff l : all_true l = true <-> every_leaf_true (Seq l).
Proof.
  unfold all_true, every_leaf_true.
  rewrite all_true_of_leaves, forallb_forall. reflexivity.
Qed.

Lemma FactCheck_bool_all_true_of fact (c : FactCheck fact) :
  FactCheck_bool c = all_true_of (check_result c).
Proof. unfold FactCheck_bool. now destruct (check_result c). Qed.

(** C4. [all_true] is the conjunction of the leaves: it returns true exactly
    when every leaf of the nested structure is true, at any depth.  So does
    the truth value of a [FactCheck], whether its payload is one boolean or
    a nested list.  [all_true([T,[T,T]])] is true, [all_true([T,[T,F]])] is
    false, [all_true([])] is true. *)
Theorem all_true_every_leaf fact (c : FactCheck fact) (iterable : list nested) :
  (all_true iterable = true <-> every_leaf_true (Seq iterable))
  /\ (FactCheck_bool c = true <-> every_leaf_true (check_result c))
  /\ all_true [Leaf true; Seq [Leaf true; Leaf true]] = true
  /\ all_true [Leaf true; Seq [Leaf true; Leaf false]] = false
  /\ all_true [] = true.
Proof.
  split; [apply all_true_iff |].
  split; [| repeat split].
  rewrite FactCheck_bool_all_true_of, all_true_of_leaves.
  unfold every_leaf_true. now rewrite forallb_forall.
Qed.

(** C1. On [[F,[F,T]]], a structure with a true leaf, [any_true] returns
    false: line 29 returns true for a nested sequence that is NOT any-true
    and skips one that is, so the true leaf inside the inner list is never
    reported.  The same line makes [any_true([[]])] true although there is
    no leaf at all.  The empty sequence does reduce to false. *)
Theorem any_true_misses_nested_leaf :
  any_true [Leaf false; Seq [Leaf false; Leaf true]] = false
  /\ some_leaf_true (Seq [Leaf false; Seq [Leaf false; Leaf true]])
  /\ any_true [Seq []] = true
  /\ ~ some_leaf_true (Seq [Seq []])
  /\ any_true [] = false.
Proof.
  repeat split.
  - unfold some_leaf_true. simpl. auto.
  - unfold some_leaf_true. simpl. tauto.
Qed.

(** ** Equality of outcomes *)

Lemma py_eq_seq l m :
  py_eq (Seq l) (Seq m)
  = match l, m with
    | [], [] => true
    | x :: l', y :: m' => py_eq x y && py_eq (Seq l') (Seq m')
    | _, _ => false
    end.
Proof. destruct l, m; reflexivity. Qed.

Lemma py_eq_spec a : forall b, py_eq a b = true <-> a = b.
Proof.
  induction a as [x | l IH] using nested_rect_list; intros [y | m].
  - simpl. rewrite Bool.eqb_true_iff. split; congruence.
  - simpl. split; discriminate.
  - simpl. split; discriminate.
  - revert m. induction IH as [| x l Hx _ IHl]; intros [| y m];
      rewrite py_eq_seq.
    + tauto.
    + split; discriminate.
    + split; discriminate.
    + rewrite andb_true_iff, Hx, IHl. split.
      * intros [-> E]. now inversion E.
      * intros E. inversion E. auto.
Qed.

(** C8. An outcome equals a raw value exactly when its stored payload is
    that value: [==] goes to [self.result == other], not to the reduced
    boolean.  An outcome wrapping [[True]] equals [[True]] and does not
    equal [True], although both reduce to true. *)
Theorem outcome_eq_compares_payload fact (c : FactCheck fact)
    (r : FactResult fact) (v : nested) :
  FactCheck_eq c v = py_eq (check_result c) v
  /\ FactResult_eq r v = py_eq (result_result r) v
  /\ (FactCheck_eq c v = true <-> check_result c = v)
  /\ (FactResult_eq r v = true <-> result_result r = v)
  /\ (let wrapped := mkFactCheck (check_fact c) (Seq [Leaf true]) in
      FactCheck_eq wrapped (Seq [Leaf true]) = true
      /\ FactCheck_eq wrapped (Leaf true) = false
      /\ FactCheck_bool wrapped = true)
  /\ (let wrapped := mkFactResult (result_fact r) (Seq [Leaf true]) in
      FactResult_eq wrapped (Seq [Leaf true]) = true
      /\ FactResult_eq wrapped (Leaf true) = false
      /\ FactResult_bool wrapped = true).
Proof.
  unfold FactCheck_eq, FactResult_eq.
  repeat split; try apply py_eq_spec; intros ->; now apply py_eq_spec.
Qed.

(** ** The engine *)

Section EngineFacts.
Context {H : Type}.
Implicit Types (self : Fact H) (h : H).

(** [check] runs [enquire] once and wraps what it returns. *)
Lemma check_run self h :
  check self h
  = match enquire self h with
    | (Ok v, h1, t) =>
        (Ok (mkFactCheck self v), h1, Invoked m_enquire :: map Issued t)
    | (Raise e, h1, t) => (Raise e, h1, Invoked m_enquire :: map Issued t)
    end.
Proof.
  unfold check, bind, emit, lift, ret.
  destruct (enquire self h) as [[[v | e] h1] t]; simpl; [| reflexivity].
  now rewrite app_nil_r.
Qed.

(** The three ways [apply] can go after [check]. *)
Lemma apply_run self h :
  apply self h
  = match check self h with
    | (Ok c, h1, t1) =>
        if negb (FactCheck_bool c) then
          match enforce self h1 with
          | (r, h2, t2) =>
              (res_map (mkFactResult self) r, h2,
               t1 ++ Invoked m_enforce :: map Issued t2)
          end
        else (Ok (mkFactResult self (Leaf false)), h1, t1)
    | (Raise e, h1, t1) => (Raise e, h1, t1)
    end.
Proof.
  unfold apply at 1, bind at 1.
  destruct (check self h) as [[[c | e] h1] t1]; [| reflexivity].
  destruct (FactCheck_bool c); simpl.
  - unfold ret. now rewrite app_nil_r.
  - unfold bind, emit, lift, ret.
    destruct (enforce self h1) as [[[v | e] h2] t2]; simpl; [| reflexivity].
    now rewrite app_nil_r.
Qed.

(** What a unit issues on the host is never mistaken for an invocation. *)
Lemma issued_not_enforce (t : list op) : ~ invokes_enforce (map Issued t).
Proof.
  unfold invokes_enforce. rewrite in_map_iff.
  intros (o & E & _). discriminate.
Qed.

Lemma check_not_enforce self h :
  ~ invokes_enforce (trace_of (check self h)).
Proof.
  rewrite check_run.
  destruct (enquire self h) as [[[v | e] h1] t]; unfold trace_of; simpl;
    intros [E | E]; try discriminate; now apply issued_not_enforce in E.
Qed.

Lemma apply_when_present self h :
  present self h ->
  exists h1 t1,
    apply self h = (Ok (mkFactResult self (Leaf false)), h1, t1).
Proof.
  intros (v & h1 & t & E & B).
  rewrite apply_run, check_run, E, FactCheck_bool_all_true_of. simpl.
  rewrite B. simpl. eauto.
Qed.

Lemma present_after_apply self h r1 h1 t1 :
  repeatable self -> establishes self ->
  apply self h = (Ok r1, h1, t1) -> present self h1.
Proof.
  intros Hrep Hest. rewrite apply_run, check_run.
  destruct (enquire self h) as [[[v | e] h0] t0] eqn:E; [| discriminate].
  rewrite FactCheck_bool_all_true_of. simpl.
  destruct (all_true_of v) eqn:B; simpl.
  - intros [= _ <- _]. eapply Hrep; eauto.
  - destruct (enforce self h0) as [[[w | e] h2] t2] eqn:F; simpl;
      [| discriminate].
    intros [= _ <- _]. eapply Hest; eauto.
Qed.
End EngineFacts.

(** [check] sees only [enquire]: a unit with another [enforce] is checked
    alike. *)
Lemma check_ignores_enforce (H : Type) (self : Fact H)
    (other : M H op nested) (h : H) :
  state_of (check (mkFact (enquire self) other) h) = state_of (check self h)
  /\ trace_of (check (mkFact (enquire self) other) h)
     = trace_of (check self h)
  /\ (forall c, value_of (check self h) = Ok c ->
                exists c', value_of (check (mkFact (enquire self) other) h)
                           = Ok c'
                           /\ FactCheck_bool c' = FactCheck_bool c).
Proof.
  rewrite !check_run. simpl enquire.
  destruct (enquire self h) as [[[v | e] h1] t];
    unfold state_of, trace_of, value_of; simpl; repeat split.
  - intros c [= <-]. eexists. split; reflexivity.
  - intros c [=].
Qed.

(** C3. [apply] invokes [enforce] exactly when [check] returns an outcome
    that evaluates to false, and invoking it is running it: in that case
    [apply] is the unit's [enforce] run on the host as [check] left it,
    with the host state [enforce] leaves, the operations [enforce] issues
    after those of [check], and [enforce]'s result wrapped or its exception
    raised.  When [check] returns an outcome that evaluates to true,
    [apply] returns an outcome wrapping [False] on the host as [check] left
    it, having issued nothing more than [check] did, and this is so
    whatever the unit's [enforce] would do: it is not run.  When [check]
    raises, [apply] raises the same and [enforce] is not run either. *)
Theorem apply_enforces_iff_check_false (H : Type) (self : Fact H) (h : H) :
  (invokes_enforce (trace_of (apply self h)) <->
   exists c h1 t1, check self h = (Ok c, h1, t1) /\ FactCheck_bool c = false)
  /\ (forall c h1 t1 r h2 t2,
         check self h = (Ok c, h1, t1) -> FactCheck_bool c = false ->
         enforce self h1 = (r, h2, t2) ->
         apply self h
         = (res_map (mkFactResult self) r, h2,
            (t1 ++ Invoked m_enforce :: map Issued t2)%list))
  /\ (forall c h1 t1,
         check self h = (Ok c, h1, t1) -> FactCheck_bool c = true ->
         apply self h = (Ok (mkFactResult self (Leaf false)), h1, t1)
         /\ ~ invokes_enforce (trace_of (apply self h))
         /\ forall other : M H op nested,
              let unit_ := mkFact (enquire self) other in
              apply unit_ h = (Ok (mkFactResult unit_ (Leaf false)), h1, t1))
  /\ (forall e h1 t1,
         check self h = (Raise e, h1, t1) ->
         apply self h = (Raise e, h1, t1)
         /\ ~ invokes_enforce (trace_of (apply self h))).
Proof.
  pose proof (check_not_enforce self h) as Hc.
  pose proof (fun other => check_ignores_enforce H self other h) as Ho.
  rewrite apply_run.
  destruct (check self h) as [[[c | e] h1] t1]; unfold trace_of in Hc;
    simpl in Hc.
  - destruct (FactCheck_bool c) eqn:B; simpl.
    + split; [| split; [| split]].
      * unfold trace_of. simpl. split; [tauto |].
        intros (c' & ? & ? & [= <- _ _] & B'). congruence.
      * intros c' h1' t1' r h2 t2 [= <- _ _] B'. congruence.
      * intros c' h1' t1' [= <- <- <-] _.
        split; [reflexivity |]. split; [exact Hc |].
        intros other. set (unit_ := mkFact (enquire self) other).
        rewrite apply_run.
        destruct (Ho other) as (Es & Et & Ev).
        destruct (Ev c eq_refl) as (c' & Ec & Bc).
        unfold state_of, trace_of, value_of in Es, Et, Ec.
        fold unit_ in Es, Et, Ec.
        destruct (check unit_ h) as [[r0 h0] t0]. simpl in Es, Et, Ec.
        subst r0 h0 t0. rewrite Bc, B. reflexivity.
      * intros e h1' t1' [=].
    + split; [| split; [| split]].
      * split; [eauto |]. intros _.
        destruct (enforce self h1) as [[r h2] t2]. unfold trace_of. simpl.
        unfold invokes_enforce. rewrite in_app_iff. right. now left.
      * intros c' h1' t1' r h2 t2 [= <- <- <-] _ ->. reflexivity.
      * intros c' h1' t1' [= <- _ _] B'. congruence.
      * intros e h1' t1' [=].
  - split; [| split; [| split]].
    + unfold trace_of. simpl. split; [tauto |].
      intros (? & ? & ? & [=] & _).
    + intros ? ? ? ? ? ? [=].
    + intros ? ? ? [=].
    + intros e' h1' t1' [= <- <- <-]. split; [reflexivity | exact Hc].
Qed.

(** The property on the model host.  Without the directory [check] is
    false and [apply] is [enforce] run: [mkdir -p] is issued after the
    listing, the directory exists afterwards and a change is reported.
    With the directory there [check] is true and only the listing is
    issued, also for a unit whose [enforce] would fail. *)
Lemma apply_enforces_iff_check_false_witness :
  let f := Examples.directory_fact "/srv" in
  (apply f []
   = (Ok (mkFactResult f (Leaf true)), ["/srv"],
      [Invoked m_enquire; Issued (Run "ls -d /srv");
       Invoked m_enforce; Issued (Run "mkdir -p /srv")])
   /\ invokes_enforce (trace_of (apply f [])))
  /\ (apply f ["/srv"]
      = (Ok (mkFactResult f (Leaf false)), ["/srv"],
         [Invoked m_enquire; Issued (Run "ls -d /srv")])
      /\ ~ invokes_enforce (trace_of (apply f ["/srv"]))
      /\ forall other : M (list string) op nested,
           let unit_ := mkFact (enquire f) other in
           apply unit_ ["/srv"]
           = (Ok (mkFactResult unit_ (Leaf false)), ["/srv"],
              [Invoked m_enquire; Issued (Run "ls -d /srv")])).
Proof.
  split; [split |].
  - exact (proj1 (proj2 (apply_enforces_iff_check_false (list string)
                           (Examples.directory_fact "/srv") []))
             (mkFactCheck (Examples.directory_fact "/srv") (Leaf false))
             [] [Invoked m_enquire; Issued (Run "ls -d /srv")]
             (Ok (Leaf true)) ["/srv"] [Run "mkdir -p /srv"]
             eq_refl eq_refl eq_refl).
  - exact (proj2 (proj1 (apply_enforces_iff_check_false (list string)
                           (Examples.directory_fact "/srv") []))
             (ex_intro _ (mkFactCheck (Examples.directory_fact "/srv")
                            (Leaf false))
                (ex_intro _ []
                   (ex_intro _ [Invoked m_enquire; Issued (Run "ls -d /srv")]
                      (conj eq_refl eq_refl))))).
  - exact (proj1 (proj2 (proj2 (apply_enforces_iff_check_false (list string)
                                  (Examples.directory_fact "/srv") ["/srv"])))
             (mkFactCheck (Examples.directory_fact "/srv") (Leaf true))
             ["/srv"] [Invoked m_enquire; Issued (Run "ls -d /srv")]
             eq_refl eq_refl).
Defined.

(** C5, as stated, fails: [AptUpdated.enquire] returns [False] whatever the
    host, so every [apply] runs [apt-get update] again and reports a
    change; the second of two calls is no exception. *)
Lemma AptUpdated_second_apply_changed :
  ~ second_apply_unchanged
      (Apt.fact_of_AptUpdated Examples.apt_host (Apt.mkAptUpdated []))
      tt.
Proof.
  intros (first & second & h' & t & E & B).
  cbv in E. injection E as _ <- _ _. discriminate B.
Qed.

(** C5, amended. For a unit that keeps the contract (inspecting a present
    state leaves it present, and mutation reaches the state that inspection
    tests), on every host state from which the first [apply] returns, the
    second [apply] returns an outcome that evaluates to false. *)
Theorem second_apply_unchanged_under_contract (H : Type) (self : Fact H)
    (h : H) (first : FactResult (Fact H)) (h1 : H) (t1 : list event) :
  repeatable self -> establishes self ->
  apply self h = (Ok first, h1, t1) ->
  second_apply_unchanged self h.
Proof.
  intros Hrep Hest E.
  assert (Hp : present self h1) by (eapply present_after_apply; eauto).
  destruct (apply_when_present self h1 Hp) as (h2 & t2 & E2).
  exists first, (mkFactResult self (Leaf false)), h2, (t1 ++ t2 ++ []).
  split; [| reflexivity].
  unfold apply_twice, bind at 1. rewrite E.
  unfold bind at 1. rewrite E2. reflexivity.
Qed.

(** [DirectoryPresent] on the model host keeps the contract: [ls -d] leaves
    the host as it is, and after [mkdir -p] the path is listed. *)
Lemma directory_fact_enquire (paths : list string) :
  enquire (Examples.directory_fact "/srv") paths
  = (Ok (Leaf (existsb (String.eqb "/srv") paths)), paths,
     [Run "ls -d /srv"]).
Proof.
  unfold Examples.directory_fact, enquire, DirectoryPresent_check, bind, run.
  unfold host_run, Examples.shell, Examples.shell_run.
  change (Examples.after "ls -d " ("ls -d " ++ "/srv")) with (Some "/srv").
  cbv beta iota.
  destruct (existsb (String.eqb "/srv") paths); reflexivity.
Qed.

Lemma directory_fact_enforce (paths : list string) :
  enforce (Examples.directory_fact "/srv") paths
  = (Ok (Leaf true), "/srv" :: paths, [Run "mkdir -p /srv"]).
Proof. reflexivity. Qed.

Lemma directory_fact_repeatable :
  repeatable (Examples.directory_fact "/srv").
Proof.
  intros h v h' t E B. rewrite directory_fact_enquire in E.
  injection E as <- <- <-.
  exists (Leaf (existsb (String.eqb "/srv") h)), h, [Run "ls -d /srv"].
  split; [apply directory_fact_enquire | exact B].
Qed.

Lemma directory_fact_establishes :
  establishes (Examples.directory_fact "/srv").
Proof.
  intros h v h' t E. rewrite directory_fact_enforce in E.
  injection E as <- <- <-.
  exists (Leaf true), ("/srv" :: h), [Run "ls -d /srv"].
  split; [| reflexivity]. now rewrite directory_fact_enquire.
Qed.

(** The property on the model host, starting without the directory:
    the first [apply] creates it, the second reports no change. *)
Lemma second_apply_unchanged_under_contract_witness :
  second_apply_unchanged (Examples.directory_fact "/srv") [].
Proof.
  exact (second_apply_unchanged_under_contract (list string)
           (Examples.directory_fact "/srv") [] _ _ _
           directory_fact_repeatable directory_fact_establishes eq_refl).
Defined.

(** ** Package units *)


(** ** File units *)

(** C7. [FileHash.apply] performs no operation and always fails, but the
    exception is the [TypeError] of [raise NotImplemented], not an
    unsupported-operation error: [NotImplemented] is not an exception. *)
Theorem FileHash_apply_raises_TypeError (H : Type) (host : Host H)
    (remote_path : string) (hash : pyobj) (h : H) :
  module_apply host (FileHash remote_path hash) h = (Raise TypeError, h, [])
  /\ TypeError <> NotImplementedError.
Proof. split; [reflexivity | discriminate]. Qed.

(** C6. When the [find] that enumerates the remote files raises
    [NoSuchFileError], [info_files_hash] returns the empty mapping; when the
    [find] that enumerates the remote directories raises it,
    [info_dirs_present] returns the empty list.  Neither propagates the
    error, and each has issued its one command. *)
Theorem missing_remote_path_is_empty (H : Type) (host : Host H)
    (self : DirectoryCopy) (h h' : H) :
  let files_command :=
    ("find " ++ dc_remote_path self ++ " -type f -exec sha256sum {} +")%string in
  let dirs_command := ("find " ++ dc_remote_path self ++ " -type d")%string in
  (host_run host files_command true true h = (Raise NoSuchFileError, h') ->
   info_files_hash host self h = (Ok [], h', [Run files_command]))
  /\ (host_run host dirs_command true true h = (Raise NoSuchFileError, h') ->
      info_dirs_present host self h = (Ok [], h', [Run dirs_command])).
Proof.
  split; intros E;
    unfold info_files_hash, info_dirs_present, except_NoSuchFileError,
      bind, run;
    rewrite E; reflexivity.
Qed.

(** On a host where nothing exists both enumerations come back empty. *)
Lemma missing_remote_path_is_empty_witness :
  info_files_hash (Examples.scripted []) Examples.mirror tt
  = (Ok [], tt, [Run "find /dst -type f -exec sha256sum {} +"])
  /\ info_dirs_present (Examples.scripted []) Examples.mirror tt
     = (Ok [], tt, [Run "find /dst -type d"]).
Proof.
  split.
  - exact (proj1 (missing_remote_path_is_empty unit (Examples.scripted [])
                    Examples.mirror tt tt) eq_refl).
  - exact (proj2 (missing_remote_path_is_empty unit (Examples.scripted [])
                    Examples.mirror tt tt) eq_refl).
Defined.

(** What the inspections issue. *)
Section CheckTraces.
Context {H : Type} (host : Host H) (fs : LocalFS).

Lemma ls_trace remote_path h :
  trace_of (FilePresent_check host remote_path h)
  = [Run ("ls -d " ++ remote_path)].
Proof.
  unfold FilePresent_check, bind, run, trace_of.
  case_run host; reflexivity.
Qed.

Lemma ls_d_trace remote_path h :
  trace_of (DirectoryPresent_check host remote_path h)
  = [Run ("ls -d " ++ remote_path)].
Proof. exact (ls_trace remote_path h). Qed.

Lemma get_hash_trace remote_path h :
  trace_of (get_hash host remote_path h)
  = [Run ("sha256sum " ++ remote_path)].
Proof.
  unfold get_hash, except_NoSuchFileError, bind, run, trace_of.
  case_run host; reflexivity.
Qed.

Lemma FileHash_check_trace remote_path hash h :
  trace_of (FileHash_check host remote_path hash h)
  = [Run ("sha256sum " ++ remote_path)].
Proof.
  pose proof (get_hash_trace remote_path h) as T.
  unfold FileHash_check, bind, trace_of in *.
  destruct (get_hash host remote_path h) as [[[v | e] h1] t]; simpl in *;
    rewrite T; reflexivity.
Qed.

Lemma FileCopy_check_known remote_path local_path remote_hash h :
  truthy remote_hash = true ->
  FileCopy_check host fs remote_path local_path remote_hash h
  = (res_map (fun local_hash => pyobj_eq local_hash remote_hash)
       (get_local_file_hash fs local_path), h, []).
Proof.
  intros T. unfold FileCopy_check, bind, of_res. rewrite T.
  now destruct (get_local_file_hash fs local_path).
Qed.

Lemma FileCopy_check_trace remote_path local_path remote_hash h :
  trace_of (FileCopy_check host fs remote_path local_path remote_hash h) = []
  \/ trace_of (FileCopy_check host fs remote_path local_path remote_hash h)
     = [Run ("sha256sum " ++ remote_path)].
Proof.
  destruct (truthy remote_hash) eqn:T.
  - left. now rewrite FileCopy_check_known.
  - unfold FileCopy_check, bind, of_res. rewrite T.
    destruct (get_local_file_hash fs local_path) as [local_hash | e].
    + right. simpl.
      pose proof (FileHash_check_trace remote_path local_hash h) as T'.
      destruct (FileHash_check host remote_path local_hash h) as [[r h1] t].
      unfold trace_of in *. simpl in *. now rewrite T'.
    + now left.
Qed.
End CheckTraces.

(** C9. The [check] of a [FilePresent], [FileHash], [FileCopy] or
    [DirectoryPresent] unit issues only [ls], [sha256sum] or [find]
    commands: no [put] and no [touch], [rm], [mkdir] or [rmdir].  The
    [check] of a [FileCopy] whose [remote_hash] is known (truthy) issues
    nothing at all, leaves the host alone and returns whether the hash of
    the local file equals [remote_hash]. *)
Theorem check_issues_no_mutation (H : Type) (host : Host H) (fs : LocalFS)
    (m : module) (h : H) :
  (inspected_class m = true ->
   forallb read_oriented (trace_of (module_check host fs m h)) = true
   /\ existsb write_class (trace_of (module_check host fs m h)) = false)
  /\ (forall remote_path local_path remote_hash,
         m = FileCopy remote_path local_path remote_hash ->
         truthy remote_hash = true ->
         module_check host fs m h
         = (res_map (fun local_hash => pyobj_eq local_hash remote_hash)
              (get_local_file_hash fs local_path), h, [])).
Proof.
  split.
  - intros C. destruct m as [p | p | p hash | p l rh | p | p];
      try discriminate C; simpl module_check.
    + now rewrite ls_trace.
    + now rewrite FileHash_check_trace.
    + destruct (FileCopy_check_trace host fs p l rh h) as [-> | ->];
        split; reflexivity.
    + now rewrite ls_d_trace.
  - intros p l rh -> T. now apply FileCopy_check_known.
Qed.

(** A [FileCopy] that was given the remote hash answers from the local
    file alone; here the hash is a [str] and the local one [bytes]. *)
Lemma check_issues_no_mutation_witness :
  let unit_ := FileCopy "/dst/a/f.txt" "/src/a/f.txt" (PStr "98ea") in
  (forallb read_oriented
     (trace_of (module_check Examples.remote_host Examples.local_fs unit_ tt))
   = true
   /\ existsb write_class
        (trace_of (module_check Examples.remote_host Examples.local_fs unit_ tt))
      = false)
  /\ module_check Examples.remote_host Examples.local_fs unit_ tt
     = (Ok false, tt, []).
Proof.
  split.
  - exact (proj1 (check_issues_no_mutation unit Examples.remote_host
                    Examples.local_fs
                    (FileCopy "/dst/a/f.txt" "/src/a/f.txt" (PStr "98ea")) tt)
             eq_refl).
  - exact (proj2 (check_issues_no_mutation unit Examples.remote_host
                    Examples.local_fs
                    (FileCopy "/dst/a/f.txt" "/src/a/f.txt" (PStr "98ea")) tt)
             "/dst/a/f.txt" "/src/a/f.txt" (PStr "98ea") eq_refl eq_refl).
Defined.

(** ** The directory diff *)

(** *** Paths *)

Lemma startswith_app (s x : string) : PyStr.startswith (s ++ x) s = true.
Proof.
  induction s as [| c s IH]; simpl.
  - now destruct x.
  - now rewrite Ascii.eqb_refl, IH.
Qed.

Lemma startswith_refl (s : string) : PyStr.startswith s s = true.
Proof.
  induction s as [| c s IH]; simpl; [reflexivity |].
  now rewrite Ascii.eqb_refl.
Qed.

Lemma startswith_trans (a b c : string) :
  PyStr.startswith b a = true -> PyStr.startswith c b = true ->
  PyStr.startswith c a = true.
Proof.
  revert b c. induction a as [| x a IH]; intros b c; simpl.
  - now destruct c.
  - destruct b as [| y b]; [discriminate |].
    destruct c as [| z c]; simpl; [discriminate |].
    rewrite !andb_true_iff, !Ascii.eqb_eq.
    intros [-> Hab] [-> Hbc]. split; [reflexivity | eauto].
Qed.

Lemma valid_name_not_absolute (n : string) :
  valid_name n = true -> PyStr.startswith n "/" = false.
Proof.
  unfold valid_name. destruct n as [| c n]; simpl; [discriminate |].
  unfold PyStr.is_char.
  destruct (Ascii.eqb c PyStr.slash) eqn:E; simpl; [discriminate |].
  intros _. change "/"%char with PyStr.slash. now rewrite E.
Qed.

(** Joining a directory entry to a path stays under that path. *)
Lemma join_startswith (a n : string) :
  valid_name n = true -> PyStr.startswith (PyStr.join a n) a = true.
Proof.
  intros V. unfold PyStr.join. rewrite (valid_name_not_absolute n V).
  destruct (negb (PyStr.nonempty a) || PyStr.endswith_char a PyStr.slash);
    apply startswith_app.
Qed.

(** *** [os.walk] *)

Lemma os_walk_dir (top : string) (entries : list (string * ltree)) :
  os_walk top (LDir entries)
  = (top, dirnames entries, filenames entries)
    :: flat_map (fun e => os_walk (PyStr.join top (fst e)) (snd e)) entries.
Proof.
  simpl. f_equal.
  induction entries as [| [n child] rest IH]; simpl; [reflexivity |].
  now rewrite IH.
Qed.

Lemma valid_tree_dir (entries : list (string * ltree)) :
  valid_tree (LDir entries)
  = forallb (fun e => valid_name (fst e) && valid_tree (snd e)) entries.
Proof.
  simpl. induction entries as [| [n child] rest IH]; simpl; [reflexivity |].
  now rewrite IH.
Qed.

(** Every root that the walk yields lies under the path it started at, so
    the assertion of [_get_remote_path] holds at each of them. *)
Lemma os_walk_roots (t : ltree) :
  forall top root dirs files,
    valid_tree t = true ->
    In (root, dirs, files) (os_walk top t) ->
    PyStr.startswith root top = true.
Proof.
  induction t as [| entries IH] using ltree_rect_entries;
    intros top root dirs files V I.
  - destruct I.
  - rewrite os_walk_dir in I. rewrite valid_tree_dir, forallb_forall in V.
    destruct I as [[= <- _ _] | I].
    + apply startswith_refl.
    + apply in_flat_map in I. destruct I as ([n child] & Ie & I).
      rewrite Forall_forall in IH.
      specialize (V _ Ie). apply andb_true_iff in V. destruct V as [Vn Vc].
      simpl in *.
      eapply startswith_trans; [apply (join_startswith top n Vn) |].
      eapply (IH _ Ie); eauto.
Qed.

(** The walk yields exactly the directories of the tree. *)
Lemma os_walk_dir_at (t : ltree) :
  forall top root dirs files,
    In (root, dirs, files) (os_walk top t) <->
    exists es, dir_at top t root es
               /\ dirs = dirnames es /\ files = filenames es.
Proof.
  induction t as [| entries IH] using ltree_rect_entries;
    intros top root dirs files.
  - split; [intros [] | intros (es & D & _); inversion D].
  - rewrite os_walk_dir. rewrite Forall_forall in IH. split.
    + intros [[= <- <- <-] | I].
      * exists entries. repeat split. constructor.
      * apply in_flat_map in I. destruct I as ([n child] & Ie & I).
        apply (IH _ Ie) in I. destruct I as (es & D & -> & ->).
        exists es. repeat split. econstructor; eauto.
    + intros (es & D & -> & ->). inversion D; subst.
      * now left.
      * right. apply in_flat_map. exists (n, child). split; [assumption |].
        apply (IH (n, child)); [assumption |]. exists es. auto.
Qed.

(** *** The loops of [submodules] *)

(** A loop whose body neither raises nor touches the host is a [map]. *)
Lemma for_each_pure {H E A B : Type} (f : A -> M H E B) (g : A -> B)
    (l : list A) (h : H) :
  (forall x, In x l -> f x h = (Ok (g x), h, [])) ->
  for_each f l h = (Ok (map g l), h, []).
Proof.
  induction l as [| x rest IH]; intros Hf; simpl; [reflexivity |].
  unfold bind at 1. rewrite (Hf x (or_introl eq_refl)).
  unfold bind at 1. rewrite IH by (intros y Iy; apply Hf; now right).
  reflexivity.
Qed.

Section PathMapping.
Context {H : Type} (self : DirectoryCopy).

Lemma get_remote_path_ok (path : string) (h : H) :
  PyStr.startswith path (dc_local_path self) = true ->
  _get_remote_path self path h = (Ok (remote_of self path), h, []).
Proof.
  intros S. unfold _get_remote_path, bind, assert. now rewrite S.
Qed.

Lemma get_local_path_ok (path : string) (h : H) :
  PyStr.startswith path (dc_remote_path self) = true ->
  _get_local_path self path h = (Ok (local_of self path), h, []).
Proof.
  intros S. unfold _get_local_path, bind, assert. now rewrite S.
Qed.

(** A path that lacks the expected prefix trips the assertion. *)
Lemma get_local_path_mismatch (path : string) (h : H) :
  PyStr.startswith path (dc_remote_path self) = false ->
  _get_local_path self path h = (Raise AssertionError, h, []).
Proof.
  intros S. unfold _get_local_path, bind, assert. now rewrite S.
Qed.
End PathMapping.

Section Loops.
Context {H : Type} (fs : LocalFS) (self : DirectoryCopy).

Lemma walk_body_ok existing_files triple (h : H) :
  PyStr.startswith (fst (fst triple)) (dc_local_path self) = true ->
  walk_body self existing_files triple h
  = (Ok (created_by self existing_files triple), h, []).
Proof.
  destruct triple as [[root dirs] files]. simpl. intros S.
  unfold walk_body, bind at 1. now rewrite (get_remote_path_ok self root h S).
Qed.

Lemma file_removal_body_ok filepath (h : H) :
  PyStr.startswith filepath (dc_remote_path self) = true ->
  file_removal_body fs self filepath h
  = (Ok (file_removed_by self fs filepath), h, []).
Proof.
  intros S. unfold file_removal_body, bind at 1.
  now rewrite (get_local_path_ok self filepath h S).
Qed.

End Loops.

(** *** The stages, unit by unit *)

Lemma dirs_to_create_spec self t existing_files u :
  In u (List.concat
          (map fst (map (created_by self existing_files)
                      (os_walk (dc_local_path self) t))))
  <-> is_dir_to_create self t u.
Proof.
  unfold is_dir_to_create. rewrite in_concat. split.
  - intros (st & Ist & Iu).
    apply in_map_iff in Ist. destruct Ist as (pr & <- & Ipr).
    apply in_map_iff in Ipr. destruct Ipr as ([[root dirs] files] & <- & I).
    apply os_walk_dir_at in I. destruct I as (es & D & -> & ->).
    simpl in Iu. apply in_map_iff in Iu. destruct Iu as (n & <- & In_).
    exists root, es, n. auto.
  - intros (root & es & n & D & In_ & ->).
    exists (fst (created_by self existing_files
                   (root, dirnames es, filenames es))).
    split.
    + apply in_map, in_map. apply os_walk_dir_at. exists es. auto.
    + simpl. apply in_map_iff. exists n. auto.
Qed.

Lemma files_to_copy_spec self t existing_files u :
  In u (List.concat
          (map snd (map (created_by self existing_files)
                      (os_walk (dc_local_path self) t))))
  <-> is_file_to_copy self t existing_files u.
Proof.
  unfold is_file_to_copy. rewrite in_concat. split.
  - intros (st & Ist & Iu).
    apply in_map_iff in Ist. destruct Ist as (pr & <- & Ipr).
    apply in_map_iff in Ipr. destruct Ipr as ([[root dirs] files] & <- & I).
    apply os_walk_dir_at in I. destruct I as (es & D & -> & ->).
    simpl in Iu. apply in_map_iff in Iu. destruct Iu as (n & <- & In_).
    exists root, es, n. auto.
  - intros (root & es & n & D & In_ & ->).
    exists (snd (created_by self existing_files
                   (root, dirnames es, filenames es))).
    split.
    + apply in_map, in_map. apply os_walk_dir_at. exists es. auto.
    + simpl. apply in_map_iff. exists n. auto.
Qed.






(** The plans of the example, computed. *)
Example submodules_example :
  value_of (submodules Examples.remote_host Examples.local_fs
              Examples.mirror tt)
  = Ok ([[DirectoryPresent "/dst/a"];
         [FileCopy "/dst/a/f.txt" "/src/a/f.txt" PNone]],
        [[FileAbsent "/dst/b/g.txt"];
         [DirectoryAbsent "/dst/b"; DirectoryAbsent "/dst/c"]]).
Proof. reflexivity. Qed.

(* ===================================================================== *)
(** * Further properties *)
(* ===================================================================== *)

(** ** Aggregation over flat lists and concatenations *)

Lemma any_true_cons x rest :
  any_true (x :: rest)
  = match x with
    | Leaf b => b || any_true rest
    | Seq l => negb (any_true l) || any_true rest
    end.
Proof.
  destruct x as [b | l].
  - rewrite any_true_leaf. reflexivity.
  - rewrite any_true_seq. reflexivity.
Qed.

Lemma any_true_flat (bs : list bool) :
  any_true (map Leaf bs) = existsb id bs.
Proof.
  induction bs as [| b bs IH]; [reflexivity |].
  simpl map. rewrite any_true_cons, IH. reflexivity.
Qed.

Lemma leaves_flat (bs : list bool) : leaves (Seq (map Leaf bs)) = bs.
Proof.
  induction bs as [| b bs IH]; [reflexivity |].
  change (leaves (Seq (map Leaf (b :: bs))))
    with (b :: leaves (Seq (map Leaf bs))).
  now rewrite IH.
Qed.

(** X1. On a list of plain booleans, with no nested sequence in it,
    [any_true] is the disjunction: it returns true exactly when one of the
    booleans is true. *)
Theorem any_true_flat_is_or (bs : list bool) :
  (any_true (map Leaf bs) = true <-> In true bs)
  /\ (any_true (map Leaf bs) = true <-> some_leaf_true (Seq (map Leaf bs))).
Proof.
  assert (E : any_true (map Leaf bs) = true <-> In true bs).
  { rewrite any_true_flat, existsb_exists. split.
    - intros (b & Ib & Hb). unfold id in Hb. now subst.
    - intros I. exists true. now split. }
  split; [exact E |]. rewrite E. unfold some_leaf_true.
  now rewrite leaves_flat.
Qed.

Lemma all_true_app (l1 l2 : list nested) :
  all_true (l1 ++ l2) = all_true l1 && all_true l2.
Proof.
  induction l1 as [| x l1 IH]; [reflexivity |].
  simpl app. rewrite !all_true_cons, IH. now rewrite andb_assoc.
Qed.

Lemma any_true_app (l1 l2 : list nested) :
  any_true (l1 ++ l2) = any_true l1 || any_true l2.
Proof.
  induction l1 as [| x l1 IH]; [reflexivity |].
  simpl app. rewrite !any_true_cons, IH. destruct x; now rewrite orb_assoc.
Qed.

(** X2. Both reductions go through concatenation: the results of two
    stages put end to end are all true exactly when each is, and any-true
    exactly when one is.  For [all_true] nesting is transparent as well:
    wrapping a part of the list in a sequence of its own, or flattening the
    whole structure to its leaves, does not change the result. *)
Theorem reductions_over_concatenation (l1 l2 : list nested) :
  all_true (l1 ++ l2) = all_true l1 && all_true l2
  /\ any_true (l1 ++ l2) = any_true l1 || any_true l2
  /\ all_true (Seq l1 :: l2) = all_true (l1 ++ l2)
  /\ all_true l1 = all_true (map Leaf (leaves (Seq l1))).
Proof.
  split; [apply all_true_app |]. split; [apply any_true_app |]. split.
  - rewrite all_true_cons, all_true_app. reflexivity.
  - unfold all_true at 1. rewrite all_true_of_leaves.
    generalize (leaves (Seq l1)). intros bs.
    induction bs as [| b bs IH]; [reflexivity |].
    simpl map. rewrite all_true_cons. simpl. now rewrite IH.
Qed.

(** ** Errors in the engine *)

(** X3. An exception in a unit goes through [check] and [apply] unchanged.
    When [enquire] raises, [check] and [apply] raise the same exception on
    the host state [enquire] left, and [enforce] is not invoked.  When
    [enquire] reports the state absent and [enforce] raises, [apply] raises
    that exception, after both invocations. *)
Theorem apply_propagates_errors (H : Type) (self : Fact H) (h : H) (e : exn) :
  (forall h1 t,
      enquire self h = (Raise e, h1, t) ->
      check self h = (Raise e, h1, Invoked m_enquire :: map Issued t)
      /\ apply self h = (Raise e, h1, Invoked m_enquire :: map Issued t)
      /\ ~ invokes_enforce (trace_of (apply self h)))
  /\ (forall v h1 t1 h2 t2,
         enquire self h = (Ok v, h1, t1) ->
         all_true_of v = false ->
         enforce self h1 = (Raise e, h2, t2) ->
         apply self h
         = (Raise e, h2,
            (Invoked m_enquire :: map Issued t1)
            ++ Invoked m_enforce :: map Issued t2)).
Proof.
  split.
  - intros h1 t E.
    assert (C : check self h
                = (Raise e, h1, Invoked m_enquire :: map Issued t))
      by (rewrite check_run, E; reflexivity).
    assert (A : apply self h
                = (Raise e, h1, Invoked m_enquire :: map Issued t))
      by (rewrite apply_run, C; reflexivity).
    repeat split; try assumption.
    rewrite A. unfold trace_of. simpl.
    intros [D | I]; [discriminate | now apply issued_not_enforce in I].
  - intros v h1 t1 h2 t2 E B F.
    rewrite apply_run, check_run, E, FactCheck_bool_all_true_of. simpl.
    rewrite B. simpl. rewrite F. reflexivity.
Qed.

(** On a host where every command fails: the inspection of a package
    fails, and so does the update that [AptUpdated] always attempts. *)
Lemma apply_propagates_errors_witness :
  let dead := MoreExamples.failing ProcessError in
  let installed :=
    Apt.fact_of_AptPresent dead (fun _ _ => false) (Apt.mkAptPresent "vim" true) in
  let updated := Apt.fact_of_AptUpdated dead (Apt.mkAptUpdated []) in
  apply installed tt
  = (Raise ProcessError, tt, [Invoked m_enquire; Issued (Run "dpkg -l vim")])
  /\ apply updated tt
     = (Raise ProcessError, tt,
        [Invoked m_enquire; Invoked m_enforce;
         Issued (Run "sudo apt-get update")]).
Proof.
  split.
  - exact (proj1 (proj2 (proj1 (apply_propagates_errors unit
             (Apt.fact_of_AptPresent (MoreExamples.failing ProcessError)
                (fun _ _ => false) (Apt.mkAptPresent "vim" true))
             tt ProcessError) tt [Run "dpkg -l vim"] eq_refl))).
  - exact (proj2 (apply_propagates_errors unit
             (Apt.fact_of_AptUpdated (MoreExamples.failing ProcessError)
                (Apt.mkAptUpdated []))
             tt ProcessError) (Leaf false) tt [] tt [Run "sudo apt-get update"]
             eq_refl eq_refl eq_refl).
Defined.

(** ** Package units, further *)

(** X4. [AptUpdated] never finds its state present: on every host and
    whatever [names] it was given, [apply] invokes [enforce] and issues
    [sudo apt-get update], exactly once; it reports a change when the
    command returns and raises the command's exception otherwise. *)
Theorem AptUpdated_apply_always_updates (H : Type) (host : Host H)
    (self : Apt.AptUpdated) (h : H) :
  let unit_ := Apt.fact_of_AptUpdated host self in
  trace_of (apply unit_ h)
  = [Invoked m_enquire; Invoked m_enforce; Issued (Run "sudo apt-get update")]
  /\ state_of (apply unit_ h)
     = snd (host_run host "sudo apt-get update" true false h)
  /\ value_of (apply unit_ h)
     = res_map (fun _ => mkFactResult unit_ (Leaf true))
         (fst (host_run host "sudo apt-get update" true false h)).
Proof.
  intros unit_. rewrite apply_run, check_run.
  unfold unit_, Apt.fact_of_AptUpdated, enquire, enforce,
    Apt.AptUpdated_enquire, Apt.AptUpdated_enforce, ret, bind, run.
  simpl.
  destruct (host_run host "sudo apt-get update" true false h)
    as [[out | e] h1]; repeat split.
Qed.

(** X5. [AptAbsent] inspects as [AptPresent] does and reports the
    opposite: the same [dpkg -l] command, the same host state afterwards,
    the same exception if there is one, and a verdict that is true exactly
    when that of [AptPresent] for the same package is false. *)
Theorem AptAbsent_check_is_complement (H : Type) (host : Host H)
    (re_match : string -> string -> bool) (self : Apt.AptAbsent) (h : H) :
  let absent := Apt.fact_of_AptAbsent host re_match self in
  let installed := Apt.fact_of_AptPresent host re_match (Apt.base self) in
  trace_of (check absent h) = trace_of (check installed h)
  /\ trace_of (check absent h)
     = [Invoked m_enquire;
        Issued (Run ("dpkg -l " ++ Apt.name (Apt.base self)))]
  /\ state_of (check absent h) = state_of (check installed h)
  /\ (forall e, value_of (check absent h) = Raise e
                <-> value_of (check installed h) = Raise e)
  /\ (forall c, value_of (check installed h) = Ok c ->
                exists c', value_of (check absent h) = Ok c'
                           /\ FactCheck_bool c' = negb (FactCheck_bool c)).
Proof.
  intros absent installed. unfold absent, installed.
  rewrite !check_run.
  unfold Apt.fact_of_AptAbsent, Apt.fact_of_AptPresent, enquire,
    Apt.AptAbsent_enquire, Apt.AptPresent_enquire, bind, run, ret.
  destruct (host_run host _ false false h) as [[out | e] h1];
    unfold trace_of, state_of, value_of; simpl.
  - repeat split; try discriminate.
    intros c [= <-]. eexists. split; [reflexivity |]. reflexivity.
  - repeat split; try (intros E; exact E). intros c [=].
Qed.

Lemma AptAbsent_check_is_complement_witness :
  let host := Examples.scripted [("dpkg -l vim", "ii  vim  9.1 amd64 editor")] in
  let starts_ii := fun (_ line : string) => PyStr.startswith line "ii" in
  let self := Apt.mkAptAbsent (Apt.mkAptPresent "vim" true) false in
  exists c',
    value_of (check (Apt.fact_of_AptAbsent host starts_ii self) tt) = Ok c'
    /\ FactCheck_bool c'
       = negb (FactCheck_bool
                 (mkFactCheck
                    (Apt.fact_of_AptPresent host starts_ii (Apt.base self))
                    (Leaf true))).
Proof.
  exact (proj2 (proj2 (proj2 (proj2
           (AptAbsent_check_is_complement unit
              (Examples.scripted [("dpkg -l vim", "ii  vim  9.1 amd64 editor")])
              (fun (_ line : string) => PyStr.startswith line "ii")
              (Apt.mkAptAbsent (Apt.mkAptPresent "vim" true) false) tt))))
           _ eq_refl).
Defined.

Section ChangeReports.
Context {H : Type}.

(** For a unit whose [enforce] returns nothing but [True], the outcome of
    [apply] is true exactly when [enforce] was invoked. *)
Lemma changed_iff_enforced (self : Fact H) (h h' : H)
    (r : FactResult (Fact H)) (t : list event) :
  (forall h0 v h1 t1, enforce self h0 = (Ok v, h1, t1) -> v = Leaf true) ->
  apply self h = (Ok r, h', t) ->
  (FactResult_bool r = true <-> invokes_enforce t).
Proof.
  intros Htrue. pose proof (check_not_enforce self h) as Hc.
  rewrite apply_run.
  destruct (check self h) as [[[c | e] h1] t1]; [| discriminate].
  unfold trace_of in Hc. simpl in Hc.
  destruct (FactCheck_bool c); simpl.
  - intros [= <- _ <-]. split; [discriminate | tauto].
  - destruct (enforce self h1) as [[[v | e] h2] t2] eqn:F; simpl;
      [| discriminate].
    intros [= <- _ <-]. rewrite (Htrue _ _ _ _ F). split; [| reflexivity].
    intros _. unfold invokes_enforce. rewrite in_app_iff. right. now left.
Qed.

Lemma enforce_true_AptPresent (host : Host H) re_match self h0 v h1 t1 :
  enforce (Apt.fact_of_AptPresent host re_match self) h0 = (Ok v, h1, t1) ->
  v = Leaf true.
Proof.
  unfold Apt.fact_of_AptPresent, enforce, Apt.AptPresent_enforce, bind, run.
  destruct (Apt.sudo self); case_run host; simpl; congruence.
Qed.

Lemma enforce_true_AptAbsent (host : Host H) re_match self h0 v h1 t1 :
  enforce (Apt.fact_of_AptAbsent host re_match self) h0 = (Ok v, h1, t1) ->
  v = Leaf true.
Proof.
  unfold Apt.fact_of_AptAbsent, enforce, Apt.AptAbsent_enforce, bind, run.
  destruct (Apt.sudo (Apt.base self)); case_run host; simpl; congruence.
Qed.

Lemma enforce_true_AptUpdated (host : Host H) self h0 v h1 t1 :
  enforce (Apt.fact_of_AptUpdated host self) h0 = (Ok v, h1, t1) ->
  v = Leaf true.
Proof.
  unfold Apt.fact_of_AptUpdated, enforce, Apt.AptUpdated_enforce, bind, run.
  case_run host; simpl; congruence.
Qed.

Lemma enforce_true_AptUpgraded (host : Host H) re_groups self h0 v h1 t1 :
  enforce (AptUpgrade.fact_of_AptUpgraded host re_groups self) h0
  = (Ok v, h1, t1) ->
  v = Leaf true.
Proof.
  unfold AptUpgrade.fact_of_AptUpgraded, enforce,
    AptUpgrade.AptUpgraded_enforce, bind, run.
  case_run host; simpl; congruence.
Qed.
End ChangeReports.

(** X6. A package unit reports a change exactly when it ran its command:
    for [AptPresent], [AptAbsent], [AptUpdated] and [AptUpgraded], whenever
    [apply] returns, its outcome evaluates to true if and only if the
    engine invoked [enforce].  The output of the command plays no part:
    [enforce] returns [True] whenever the command does not raise. *)
Theorem package_change_iff_enforced (H : Type) (host : Host H)
    (re_match : string -> string -> bool)
    (re_groups : string -> string ->
                 option (string * string * string * string * string))
    (self : Fact H) (h h' : H) (r : FactResult (Fact H)) (t : list event) :
  (exists u, self = Apt.fact_of_AptPresent host re_match u)
  \/ (exists u, self = Apt.fact_of_AptAbsent host re_match u)
  \/ (exists u, self = Apt.fact_of_AptUpdated host u)
  \/ (exists u, self = AptUpgrade.fact_of_AptUpgraded host re_groups u) ->
  apply self h = (Ok r, h', t) ->
  (FactResult_bool r = true <-> invokes_enforce t).
Proof.
  intros [[u ->] | [[u ->] | [[u ->] | [u ->]]]] A;
    (eapply changed_iff_enforced; [| exact A]); intros h0 v h1 t1.
  - apply enforce_true_AptPresent.
  - apply enforce_true_AptAbsent.
  - apply enforce_true_AptUpdated.
  - apply enforce_true_AptUpgraded.
Qed.

(** A package that is listed as installed: nothing is run, no change. *)
Lemma package_change_iff_enforced_witness :
  let host := Examples.scripted [("dpkg -l vim", "ii  vim  9.1 amd64 editor")] in
  let starts_ii := fun (_ line : string) => PyStr.startswith line "ii" in
  let self :=
    Apt.fact_of_AptPresent host starts_ii (Apt.mkAptPresent "vim" true) in
  FactResult_bool (mkFactResult self (Leaf false)) = true
  <-> invokes_enforce [Invoked m_enquire; Issued (Run "dpkg -l vim")].
Proof.
  exact (package_change_iff_enforced unit
           (Examples.scripted [("dpkg -l vim", "ii  vim  9.1 amd64 editor")])
           (fun (_ line : string) => PyStr.startswith line "ii")
           MoreExamples.six_fields _ tt tt _ _
           (or_introl (ex_intro _ (Apt.mkAptPresent "vim" true) eq_refl))
           eq_refl).
Defined.

(** *** [AptUpgraded] *)

Lemma dict_set_nonempty {V} (k : string) (v : V) (d : dict V) :
  dict_set k v d <> [].
Proof.
  destruct d as [| [k0 v0] rest]; simpl; [discriminate |].
  destruct (String.eqb k0 k); discriminate.
Qed.

Lemma dict_fold_nonempty {V} (pairs : list (string * V)) (d : dict V) :
  d <> [] ->
  fold_left (fun d kv => dict_set (fst kv) (snd kv) d) pairs d <> [].
Proof.
  revert d. induction pairs as [| kv pairs IH]; intros d Hd; simpl.
  - exact Hd.
  - apply IH, dict_set_nonempty.
Qed.

Lemma dict_of_list_empty {V} (pairs : list (string * V)) :
  List.length (dict_of_list pairs) = 0 <-> pairs = [].
Proof.
  split.
  - destruct pairs as [| kv pairs]; [reflexivity |].
    unfold dict_of_list. simpl. intros L. exfalso.
    apply length_zero_iff_nil in L. revert L.
    apply dict_fold_nonempty. discriminate.
  - intros ->. reflexivity.
Qed.

Lemma parse_upgradeable_nil re_groups (lines : list string) :
  AptUpgrade.parse_upgradeable re_groups lines = []
  <-> forall line, In line lines ->
                   re_groups AptUpgrade.RE_UPGRADEABLE line = None.
Proof.
  induction lines as [| line rest IH]; simpl.
  - split; [intros _ ? [] | reflexivity].
  - destruct (re_groups AptUpgrade.RE_UPGRADEABLE line)
      as [[[[[n s] nv] a] v] |] eqn:G.
    + split; [discriminate |]. intros Hn.
      specialize (Hn line (or_introl eq_refl)). congruence.
    + rewrite IH. split.
      * intros Hr l [<- | I]; auto.
      * intros Hr l I. apply Hr. now right.
Qed.

(** X7. [AptUpgraded.enquire] lists the upgradable packages among [names]
    with one [apt list --upgradeable] command and reports the state present
    exactly when no line of the listing, its [Listing...] header line
    dropped, matches the pattern for an upgradable entry.  An exception of
    the command is raised unchanged. *)
Theorem AptUpgraded_enquire_verdict (H : Type) (host : Host H)
    (re_groups : string -> string ->
                 option (string * string * string * string * string))
    (self : AptUpgrade.AptUpgraded) (h h1 : H) :
  let command :=
    ("apt list --upgradeable "
     ++ String.concat " " (AptUpgrade.names self))%string in
  (forall status,
      host_run host command true false h = (Ok status, h1) ->
      exists b,
        AptUpgrade.AptUpgraded_enquire host re_groups self h
        = (Ok (Leaf b), h1, [Run command])
        /\ (b = true <->
            forall line,
              In line (PyStr.split_lines (AptUpgrade.without_header status)) ->
              re_groups AptUpgrade.RE_UPGRADEABLE line = None))
  /\ (forall e,
         host_run host command true false h = (Raise e, h1) ->
         AptUpgrade.AptUpgraded_enquire host re_groups self h
         = (Raise e, h1, [Run command])).
Proof.
  intros command. split.
  - intros status E. eexists. split.
    + unfold AptUpgrade.AptUpgraded_enquire, AptUpgrade.info, bind, run, ret.
      fold command. rewrite E. reflexivity.
    + rewrite Nat.eqb_eq, dict_of_list_empty. apply parse_upgradeable_nil.
  - intros e E.
    unfold AptUpgrade.AptUpgraded_enquire, AptUpgrade.info, bind, run.
    fold command. rewrite E. reflexivity.
Qed.

(** One package of the two asked about can be upgraded: not present. *)
Lemma AptUpgraded_enquire_verdict_witness :
  exists b,
    AptUpgrade.AptUpgraded_enquire MoreExamples.upgrade_host
      MoreExamples.six_fields (AptUpgrade.mkAptUpgraded ["vim"; "curl"]) tt
    = (Ok (Leaf b), tt, [Run "apt list --upgradeable vim curl"])
    /\ (b = true <->
        forall line,
          In line ["vim/stable 9.1 amd64 [upgradable from: 9.0]"; ""] ->
          MoreExamples.six_fields AptUpgrade.RE_UPGRADEABLE line = None).
Proof.
  exact (proj1 (AptUpgraded_enquire_verdict unit MoreExamples.upgrade_host
                  MoreExamples.six_fields
                  (AptUpgrade.mkAptUpgraded ["vim"; "curl"]) tt tt)
           _ eq_refl).
Defined.

(** ** File units, further *)

Lemma pyobj_eq_spec (a b : pyobj) : pyobj_eq a b = true <-> a = b.
Proof.
  destruct a, b; simpl; try rewrite String.eqb_eq;
    split; try congruence; try discriminate.
Qed.

Section FileUnits.
Context {H : Type} (host : Host H) (fs : LocalFS).

(** [FileHash.check] by what the host answers to [sha256sum]. *)
Lemma FileHash_check_answer (remote_path : string) (hash : pyobj) (h : H) :
  FileHash_check host remote_path hash h
  = match host_run host ("sha256sum " ++ remote_path) true true h with
    | (Ok output, h1) =>
        (Ok (pyobj_eq (PBytes (PyStr.first_field output)) hash), h1,
         [Run ("sha256sum " ++ remote_path)])
    | (Raise NoSuchFileError, h1) =>
        (Ok (pyobj_eq PFalse hash), h1, [Run ("sha256sum " ++ remote_path)])
    | (Raise e, h1) => (Raise e, h1, [Run ("sha256sum " ++ remote_path)])
    end.
Proof.
  unfold FileHash_check, get_hash, except_NoSuchFileError, bind, run, ret.
  case_run host; reflexivity.
Qed.

Lemma FileCopy_check_unknown (remote_path local_path : string)
    (remote_hash local_hash : pyobj) (h : H) :
  truthy remote_hash = false ->
  get_local_file_hash fs local_path = Ok local_hash ->
  FileCopy_check host fs remote_path local_path remote_hash h
  = FileHash_check host remote_path local_hash h.
Proof.
  intros T L. unfold FileCopy_check, bind at 1, of_res. rewrite L, T. simpl.
  destruct (FileHash_check host remote_path local_hash h) as [[r h1] t].
  reflexivity.
Qed.
End FileUnits.

(** X8. The [apply] of every unit but [FileHash] issues exactly one
    operation, a write: [touch], [rm], [mkdir -p] or [rmdir] on the remote
    path, or the transfer of the local file to the remote path.  It never
    inspects first, returns [True] whenever the operation does not raise
    (never [False]), and raises the operation's exception otherwise. *)
Theorem module_apply_single_write (H : Type) (host : Host H) (m : module)
    (o : op) (h : H) :
  apply_op m = Some o ->
  module_apply host m h
  = (res_map (fun _ => true) (fst (perform host o h)),
     snd (perform host o h), [o])
  /\ write_class o = true
  /\ read_oriented o = false.
Proof.
  destruct m as [p | p | p hash | p l rh | p | p]; intros [= <-];
    (split; [| split; reflexivity]);
    unfold module_apply, FilePresent_apply, FileAbsent_apply, FileCopy_apply,
      DirectoryPresent_apply, DirectoryAbsent_apply, bind, run, put, perform;
    cbn [append]; try (case_run host; reflexivity).
  destruct (host_put host p l h) as [[[] | e] h1]; reflexivity.
Qed.

(** Creating a directory on the model host. *)
Lemma module_apply_single_write_witness :
  module_apply Examples.shell (DirectoryPresent "/srv") []
  = (Ok true, ["/srv"], [Run "mkdir -p /srv"])
  /\ write_class (Run "mkdir -p /srv") = true
  /\ read_oriented (Run "mkdir -p /srv") = false.
Proof.
  exact (module_apply_single_write (list string) Examples.shell
           (DirectoryPresent "/srv") (Run "mkdir -p /srv") [] eq_refl).
Defined.

(** X9. [FileAbsent.check] and [DirectoryAbsent.check] run the check of
    the unit that asserts presence and negate its answer: the same single
    [ls -d] command, the same host state, the same exception if any.  They
    issue no write either. *)
Theorem absent_check_negates_present (H : Type) (host : Host H)
    (fs : LocalFS) (m : module) (h : H) :
  is_absent_class m = true ->
  module_check host fs m h
  = (res_map negb (value_of (module_check host fs (present_form m) h)),
     state_of (module_check host fs (present_form m) h),
     trace_of (module_check host fs (present_form m) h))
  /\ forallb read_oriented (trace_of (module_check host fs m h)) = true
  /\ existsb write_class (trace_of (module_check host fs m h)) = false.
Proof.
  destruct m as [p | p | p hash | p l rh | p | p]; try discriminate;
    intros _; simpl;
    unfold FileAbsent_check, DirectoryAbsent_check, FilePresent_check,
      DirectoryPresent_check, bind, run, ret, value_of, state_of, trace_of;
    case_run host; simpl; repeat split.
Qed.

Lemma absent_check_negates_present_witness :
  module_check Examples.shell Examples.no_local (DirectoryAbsent "/srv") []
  = (Ok true, [], [Run "ls -d /srv"])
  /\ forallb read_oriented
       (trace_of (module_check Examples.shell Examples.no_local
                    (DirectoryAbsent "/srv") [])) = true
  /\ existsb write_class
       (trace_of (module_check Examples.shell Examples.no_local
                    (DirectoryAbsent "/srv") [])) = false.
Proof.
  exact (absent_check_negates_present (list string) Examples.shell
           Examples.no_local (DirectoryAbsent "/srv") [] eq_refl).
Defined.

(** X10. A missing remote file is no error for [FileHash.check]: when
    [sha256sum] raises [NoSuchFileError] the check returns [False] for
    every expected hash other than [False] itself.  Any other exception of
    the command is raised unchanged. *)
Theorem FileHash_check_missing_file (H : Type) (host : Host H)
    (remote_path : string) (hash : pyobj) (h h1 : H) :
  let command := ("sha256sum " ++ remote_path)%string in
  (host_run host command true true h = (Raise NoSuchFileError, h1) ->
   hash <> PFalse ->
   FileHash_check host remote_path hash h = (Ok false, h1, [Run command]))
  /\ (forall e,
         e <> NoSuchFileError ->
         host_run host command true true h = (Raise e, h1) ->
         FileHash_check host remote_path hash h = (Raise e, h1, [Run command])).
Proof.
  intros command. split.
  - intros E Hh. rewrite FileHash_check_answer. fold command. rewrite E.
    destruct (pyobj_eq PFalse hash) eqn:P; [| reflexivity].
    apply pyobj_eq_spec in P. congruence.
  - intros e He E. rewrite FileHash_check_answer. fold command. rewrite E.
    destruct e; congruence.
Qed.

Lemma FileHash_check_missing_file_witness :
  FileHash_check (Examples.scripted []) "/dst/x" (PBytes "c0ff") tt
  = (Ok false, tt, [Run "sha256sum /dst/x"])
  /\ FileHash_check (MoreExamples.failing ProcessError) "/dst/x"
       (PBytes "c0ff") tt
     = (Raise ProcessError, tt, [Run "sha256sum /dst/x"]).
Proof.
  split.
  - refine (proj1 (FileHash_check_missing_file unit (Examples.scripted [])
                     "/dst/x" (PBytes "c0ff") tt tt) eq_refl _).
    discriminate.
  - refine (proj2 (FileHash_check_missing_file unit
                     (MoreExamples.failing ProcessError)
                     "/dst/x" (PBytes "c0ff") tt tt) ProcessError _ eq_refl).
    discriminate.
Defined.

(** X11. When [sha256sum] returns, [FileHash.check] is true exactly when
    the expected hash is the [bytes] value of the output up to its first
    space.  An expected hash given as [str] therefore never matches, even
    with the right digits. *)
Theorem FileHash_check_compares_bytes (H : Type) (host : Host H)
    (remote_path output : string) (hash : pyobj) (h h1 : H) :
  host_run host ("sha256sum " ++ remote_path) true true h = (Ok output, h1) ->
  exists b,
    FileHash_check host remote_path hash h
    = (Ok b, h1, [Run ("sha256sum " ++ remote_path)])
    /\ (b = true <-> hash = PBytes (PyStr.first_field output))
    /\ (is_bytes hash = false -> b = false).
Proof.
  intros E. eexists. split; [| split].
  - rewrite FileHash_check_answer, E. reflexivity.
  - rewrite pyobj_eq_spec. split; congruence.
  - now destruct hash.
Qed.

Lemma FileHash_check_compares_bytes_witness :
  exists b,
    FileHash_check MoreExamples.file_host "/dst" (PStr "c0ff") tt
    = (Ok b, tt, [Run "sha256sum /dst"])
    /\ (b = true <-> PStr "c0ff" = PBytes "c0ff")
    /\ (is_bytes (PStr "c0ff") = false -> b = false).
Proof.
  exact (FileHash_check_compares_bytes unit MoreExamples.file_host
           "/dst" "c0ff  /dst" (PStr "c0ff") tt tt eq_refl).
Defined.

(** X12. [FileCopy.check] needs the local file first: when its hash cannot
    be taken the check raises that exception and asks nothing of the host.
    With no remote hash known ([None] or an empty value) it asks the host
    for the hash of the remote file, once, and is true exactly when the
    local hash is the [bytes] value of the digest printed; a missing remote
    file makes it false. *)
Theorem FileCopy_check_without_known_hash (H : Type) (host : Host H)
    (fs : LocalFS) (remote_path local_path : string) (remote_hash : pyobj)
    (h h1 : H) :
  let command := ("sha256sum " ++ remote_path)%string in
  (forall e,
      get_local_file_hash fs local_path = Raise e ->
      FileCopy_check host fs remote_path local_path remote_hash h
      = (Raise e, h, []))
  /\ (forall local_hash output,
         truthy remote_hash = false ->
         get_local_file_hash fs local_path = Ok local_hash ->
         host_run host command true true h = (Ok output, h1) ->
         exists b,
           FileCopy_check host fs remote_path local_path remote_hash h
           = (Ok b, h1, [Run command])
           /\ (b = true <-> local_hash = PBytes (PyStr.first_field output)))
  /\ (forall local_hash,
         truthy remote_hash = false ->
         get_local_file_hash fs local_path = Ok local_hash ->
         local_hash <> PFalse ->
         host_run host command true true h = (Raise NoSuchFileError, h1) ->
         FileCopy_check host fs remote_path local_path remote_hash h
         = (Ok false, h1, [Run command])).
Proof.
  intros command. split; [| split].
  - intros e L. unfold FileCopy_check, bind, of_res. now rewrite L.
  - intros lh out T L E. eexists. split.
    + rewrite (FileCopy_check_unknown host fs _ _ _ lh h T L).
      rewrite FileHash_check_answer. fold command. rewrite E. reflexivity.
    + rewrite pyobj_eq_spec. split; congruence.
  - intros lh T L Hl E.
    rewrite (FileCopy_check_unknown host fs _ _ _ lh h T L).
    rewrite FileHash_check_answer. fold command. rewrite E.
    destruct (pyobj_eq PFalse lh) eqn:P; [| reflexivity].
    apply pyobj_eq_spec in P. congruence.
Qed.

Lemma FileCopy_check_without_known_hash_witness :
  FileCopy_check (Examples.scripted []) Examples.local_fs
    "/dst/a/g.txt" "/src/a/g.txt" PNone tt
  = (Raise NoSuchFileError, tt, [])
  /\ FileCopy_check (Examples.scripted []) Examples.local_fs
       "/dst/a/f.txt" "/src/a/f.txt" PNone tt
     = (Ok false, tt, [Run "sha256sum /dst/a/f.txt"]).
Proof.
  split.
  - exact (proj1 (FileCopy_check_without_known_hash unit (Examples.scripted [])
                    Examples.local_fs "/dst/a/g.txt" "/src/a/g.txt" PNone tt tt)
             NoSuchFileError eq_refl).
  - refine (proj2 (proj2 (FileCopy_check_without_known_hash unit
                    (Examples.scripted []) Examples.local_fs
                    "/dst/a/f.txt" "/src/a/f.txt" PNone tt tt))
             (PBytes "98ea") eq_refl eq_refl _ eq_refl).
    discriminate.
Defined.

(** The copy of [a/f.txt] that the diff plans when the remote enumeration
    already lists the file, with the very digits of the local hash. *)
Lemma example_file_to_copy :
  is_file_to_copy Examples.mirror Examples.local_tree
    [("/dst/a/f.txt", "98ea")]
    (FileCopy "/dst/a/f.txt" "/src/a/f.txt" (PStr "98ea")).
Proof.
  exists "/src/a", [("f.txt", LFile)], "f.txt". split; [| split].
  - eapply dir_below; [left; reflexivity |]. apply dir_here.
  - left. reflexivity.
  - reflexivity.
Qed.

(** X13. In a [FileCopy] unit that [submodules] creates, a known remote
    hash is a [str], taken from the text of the enumeration.  Its check
    compares it with the local hash by [==]; when the local hash is
    [bytes], the type that the check without a known hash needs in order to
    ever succeed, the comparison is false whatever the digits: such a unit
    is reported absent without the host being asked, also when remote and
    local content agree. *)
Theorem planned_copy_with_known_hash_is_absent (H : Type) (host : Host H)
    (fs : LocalFS) (self : DirectoryCopy) (t : ltree)
    (existing_files : dict string) (remote_path local_path : string)
    (remote_hash local_hash : pyobj) (h : H) :
  is_file_to_copy self t existing_files
    (FileCopy remote_path local_path remote_hash) ->
  truthy remote_hash = true ->
  get_local_file_hash fs local_path = Ok local_hash ->
  is_bytes local_hash = true ->
  (exists digits, remote_hash = PStr digits)
  /\ module_check host fs (FileCopy remote_path local_path remote_hash) h
     = (Ok false, h, []).
Proof.
  intros (root & es & n & _ & _ & [= -> -> ->]) T L B.
  unfold known_hash in *.
  destruct (dict_get (PyStr.join (remote_of self root) n) existing_files)
    as [digits |]; [| discriminate T].
  split; [eauto |]. simpl module_check.
  rewrite (FileCopy_check_known host fs _ _ _ h T), L.
  destruct local_hash; try discriminate B. reflexivity.
Qed.

Lemma planned_copy_with_known_hash_is_absent_witness :
  (exists digits, PStr "98ea" = PStr digits)
  /\ module_check Examples.remote_host Examples.local_fs
       (FileCopy "/dst/a/f.txt" "/src/a/f.txt" (PStr "98ea")) tt
     = (Ok false, tt, []).
Proof.
  exact (planned_copy_with_known_hash_is_absent unit Examples.remote_host
           Examples.local_fs Examples.mirror Examples.local_tree
           [("/dst/a/f.txt", "98ea")] "/dst/a/f.txt" "/src/a/f.txt"
           (PStr "98ea") (PBytes "98ea") tt
           example_file_to_copy eq_refl eq_refl eq_refl).
Defined.

(** X14. [FileContent.check] hashes the expected content locally and asks
    the host for the hash of the remote file, once: it is true exactly when
    the digest printed by [sha256sum] is the hex digest of the content, and
    false when the remote file is missing. *)
Theorem FileContent_check_compares_digest (H : Type) (host : Host H)
    (sha256_hexdigest : string -> string) (remote_path content : string)
    (h h1 : H) :
  let command := ("sha256sum " ++ remote_path)%string in
  (forall output,
      host_run host command true true h = (Ok output, h1) ->
      exists b,
        FileContent_check host sha256_hexdigest remote_path content h
        = (Ok b, h1, [Run command])
        /\ (b = true <->
            PyStr.first_field output = sha256_hexdigest content))
  /\ (host_run host command true true h = (Raise NoSuchFileError, h1) ->
      FileContent_check host sha256_hexdigest remote_path content h
      = (Ok false, h1, [Run command])).
Proof.
  intros command. unfold FileContent_check. split.
  - intros output E. eexists. split.
    + rewrite FileHash_check_answer. fold command. rewrite E. reflexivity.
    + simpl. apply String.eqb_eq.
  - intros E. rewrite FileHash_check_answer. fold command. now rewrite E.
Qed.

Lemma FileContent_check_compares_digest_witness :
  (exists b,
      FileContent_check MoreExamples.file_host (fun _ => "c0ff") "/dst" "hi" tt
      = (Ok b, tt, [Run "sha256sum /dst"])
      /\ (b = true <-> "c0ff" = "c0ff"))
  /\ FileContent_check (Examples.scripted []) (fun _ => "c0ff") "/dst" "hi" tt
     = (Ok false, tt, [Run "sha256sum /dst"]).
Proof.
  split.
  - exact (proj1 (FileContent_check_compares_digest unit
                    MoreExamples.file_host (fun _ => "c0ff") "/dst" "hi" tt tt)
             "c0ff  /dst" eq_refl).
  - exact (proj2 (FileContent_check_compares_digest unit
                    (Examples.scripted []) (fun _ => "c0ff") "/dst" "hi" tt tt)
             eq_refl).
Defined.

(** ** The remote enumerations *)

Lemma well_formed_line_cases (line : string) :
  (PyStr.nonempty line = false /\ well_formed_line line = true)
  \/ (PyStr.nonempty line = true /\ well_formed_line line = true
      /\ exists hash path, PyStr.split_ws line = [hash; path])
  \/ (PyStr.nonempty line = true /\ well_formed_line line = false
      /\ forall hash path, PyStr.split_ws line <> [hash; path]).
Proof.
  unfold well_formed_line.
  destruct (PyStr.nonempty line); [right | now left].
  destruct (PyStr.split_ws line) as [| a [| b [| c r]]]; simpl.
  - right. repeat split. discriminate.
  - right. repeat split. discriminate.
  - left. repeat split. eauto.
  - right. repeat split. discriminate.
Qed.

(** The loop of [info_files_hash] returns on well-formed lines and raises
    [ValueError] at the first line that is not. *)
Lemma parse_hash_lines_result (lines : list string) :
  forall d,
    if forallb well_formed_line lines
    then exists d', parse_hash_lines lines d = Ok d'
    else parse_hash_lines lines d = Raise ValueError.
Proof.
  induction lines as [| line rest IH]; intros d; simpl.
  - eauto.
  - destruct (well_formed_line_cases line)
      as [[N W] | [(N & W & hash & path & S) | (N & W & S)]];
      rewrite N, W; simpl.
    + apply IH.
    + rewrite S. apply IH.
    + destruct (PyStr.split_ws line) as [| a [| b [| c r]]];
        try reflexivity.
      now destruct (S a b).
Qed.

Section Enumerations.
Context {H : Type} (host : Host H) (self : DirectoryCopy).

Lemma info_files_hash_answer (h : H) :
  info_files_hash host self h
  = match host_run host (files_command self) true true h with
    | (Ok output, h1) =>
        (parse_hash_lines (PyStr.split_lines (PyStr.strip output)) [],
         h1, [Run (files_command self)])
    | (Raise NoSuchFileError, h1) => (Ok [], h1, [Run (files_command self)])
    | (Raise e, h1) => (Raise e, h1, [Run (files_command self)])
    end.
Proof.
  unfold info_files_hash, except_NoSuchFileError, bind, run, of_res, ret,
    raise.
  change ("find " ++ dc_remote_path self ++ " -type f -exec sha256sum {} +")%string
    with (files_command self).
  destruct (host_run host (files_command self) true true h)
    as [[output | []] h1]; try reflexivity.
  pose proof (parse_hash_lines_result
                (PyStr.split_lines (PyStr.strip output)) []) as P.
  destruct (forallb well_formed_line _).
  - destruct P as [d' ->]. reflexivity.
  - rewrite P. reflexivity.
Qed.

Lemma info_dirs_present_answer (h : H) :
  info_dirs_present host self h
  = match host_run host (dirs_command self) true true h with
    | (Ok output, h1) =>
        (Ok (PyStr.split_lines (PyStr.strip output)), h1,
         [Run (dirs_command self)])
    | (Raise NoSuchFileError, h1) => (Ok [], h1, [Run (dirs_command self)])
    | (Raise e, h1) => (Raise e, h1, [Run (dirs_command self)])
    end.
Proof.
  unfold info_dirs_present, except_NoSuchFileError, bind, run, ret.
  change ("find " ++ dc_remote_path self ++ " -type d")%string
    with (dirs_command self).
  destruct (host_run host (dirs_command self) true true h)
    as [[output | []] h1]; reflexivity.
Qed.
End Enumerations.

(** X15. [info_files_hash] takes every non-empty line of the output to be
    a hash and a path: it returns a mapping when each such line has exactly
    two whitespace-separated fields, and raises [ValueError] as soon as one
    does not, as for a file name with a space in it.  That exception is not
    the one the routine catches. *)
Theorem info_files_hash_needs_two_fields (H : Type) (host : Host H)
    (self : DirectoryCopy) (output : string) (h h1 : H) :
  host_run host (files_command self) true true h = (Ok output, h1) ->
  let lines := PyStr.split_lines (PyStr.strip output) in
  (forallb well_formed_line lines = true ->
   exists result,
     info_files_hash host self h
     = (Ok result, h1, [Run (files_command self)]))
  /\ (forallb well_formed_line lines = false ->
      info_files_hash host self h
      = (Raise ValueError, h1, [Run (files_command self)])).
Proof.
  intros E lines. rewrite info_files_hash_answer, E.
  pose proof (parse_hash_lines_result lines []) as P. fold lines.
  split; intros W; rewrite W in P.
  - destruct P as [d' ->]. eauto.
  - now rewrite P.
Qed.

Lemma info_files_hash_needs_two_fields_witness :
  (exists result,
      info_files_hash Examples.remote_host Examples.mirror tt
      = (Ok result, tt, [Run (files_command Examples.mirror)]))
  /\ info_files_hash MoreExamples.spaced_host Examples.mirror tt
     = (Raise ValueError, tt, [Run (files_command Examples.mirror)]).
Proof.
  split.
  - exact (proj1 (info_files_hash_needs_two_fields unit Examples.remote_host
                    Examples.mirror _ tt tt eq_refl) eq_refl).
  - exact (proj2 (info_files_hash_needs_two_fields unit
                    MoreExamples.spaced_host Examples.mirror _ tt tt eq_refl)
             eq_refl).
Defined.

(** *** The mapping that [info_files_hash] builds *)

Lemma dict_get_set {V} (k k' : string) (v : V) (d : dict V) :
  dict_get k' (dict_set k v d)
  = if String.eqb k k' then Some v else dict_get k' d.
Proof.
  induction d as [| [k0 v0] rest IH]; simpl; [reflexivity |].
  destruct (String.eqb_spec k0 k) as [-> | N]; simpl.
  - destruct (String.eqb k k'); reflexivity.
  - rewrite IH.
    destruct (String.eqb_spec k0 k') as [-> | N'];
      destruct (String.eqb_spec k k') as [-> | N'']; congruence.
Qed.

Lemma dict_keys_set {V} (k k' : string) (v : V) (d : dict V) :
  In k' (dict_keys (dict_set k v d)) <-> k' = k \/ In k' (dict_keys d).
Proof.
  unfold dict_keys.
  induction d as [| [k0 v0] rest IH]; simpl.
  - intuition.
  - destruct (String.eqb_spec k0 k) as [-> | N]; simpl.
    + intuition.
    + rewrite IH. intuition.
Qed.

Lemma dict_set_NoDup {V} (k : string) (v : V) (d : dict V) :
  NoDup (dict_keys d) -> NoDup (dict_keys (dict_set k v d)).
Proof.
  unfold dict_keys.
  induction d as [| [k0 v0] rest IH]; simpl; intros ND.
  - constructor; [intros [] | constructor].
  - inversion ND as [| ? ? Hn ND']; subst.
    destruct (String.eqb_spec k0 k) as [-> | N]; simpl.
    + now constructor.
    + constructor; [| auto].
      intros I. apply (dict_keys_set k k0 v rest) in I.
      destruct I as [-> | I]; [congruence | contradiction].
Qed.

Lemma parse_hash_lines_lookup (lines : list string) :
  forall acc d,
    parse_hash_lines lines acc = Ok d ->
    NoDup (dict_keys acc) ->
    NoDup (dict_keys d)
    /\ forall path,
         dict_get path d
         = match last_value path (line_entries lines) with
           | Some hash => Some hash
           | None => dict_get path acc
           end.
Proof.
  induction lines as [| line rest IH]; intros acc d; simpl.
  - intros [= <-] ND. auto.
  - destruct (well_formed_line_cases line)
      as [[N W] | [(N & W & hash & path & S) | (N & W & S)]]; rewrite N; simpl.
    + destruct line; [| discriminate N]. simpl. apply IH.
    + rewrite S. intros P ND.
      destruct (IH _ _ P (dict_set_NoDup path hash acc ND)) as [ND' L].
      split; [exact ND' |]. intros path'. rewrite L. simpl.
      destruct (last_value path' (line_entries rest)); [reflexivity |].
      rewrite dict_get_set. now destruct (String.eqb path path').
    + destruct (PyStr.split_ws line) as [| a [| b [| c r]]]; try discriminate.
      now destruct (S a b).
Qed.

(** X16. The mapping that [info_files_hash] returns has each path once,
    and gives for a path the hash of the last line of the output that
    names it; a path on no line is not in the mapping. *)
Theorem info_files_hash_last_line_wins (H : Type) (host : Host H)
    (self : DirectoryCopy) (output : string) (result : dict string)
    (h h1 h2 : H) (t : list op) :
  host_run host (files_command self) true true h = (Ok output, h1) ->
  info_files_hash host self h = (Ok result, h2, t) ->
  NoDup (dict_keys result)
  /\ forall path,
       dict_get path result
       = last_value path
           (line_entries (PyStr.split_lines (PyStr.strip output))).
Proof.
  intros E. rewrite info_files_hash_answer, E. intros [= P _ _].
  destruct (parse_hash_lines_lookup _ _ _ P (NoDup_nil _)) as [ND L].
  split; [exact ND |]. intros path. rewrite L. simpl.
  now destruct (last_value path _).
Qed.

Lemma info_files_hash_last_line_wins_witness :
  NoDup (dict_keys [("/dst/b/g.txt", "c0ff")])
  /\ forall path,
       dict_get path [("/dst/b/g.txt", "c0ff")]
       = last_value path
           (line_entries
              (PyStr.split_lines
                 (PyStr.strip ("c0ff  /dst/b/g.txt" ++ Examples.nl)))).
Proof.
  exact (info_files_hash_last_line_wins unit Examples.remote_host
           Examples.mirror _ _ tt tt tt _ eq_refl eq_refl).
Defined.

(** ** [submodules], further *)

Section Quiet.
Context {H E : Type}.

Lemma quiet_ret {A} (a : A) : quiet (ret a : M H E A).
Proof. intros h. split; reflexivity. Qed.

Lemma quiet_raise {A} (e : exn) : quiet (raise e : M H E A).
Proof. intros h. split; reflexivity. Qed.

Lemma quiet_bind {A B} (m : M H E A) (k : A -> M H E B) :
  quiet m -> (forall a, quiet (k a)) -> quiet (bind m k).
Proof.
  intros Hm Hk h. specialize (Hm h). unfold bind, trace_of, state_of in *.
  destruct (m h) as [[[a | e] h1] t1]; simpl in *; destruct Hm as [-> ->].
  - specialize (Hk a h). unfold trace_of, state_of in Hk.
    destruct (k a h) as [[r h2] t2]. simpl in *. exact Hk.
  - auto.
Qed.

Lemma quiet_assert (cond : bool) : quiet (assert cond : M H E unit).
Proof. destruct cond; [apply quiet_ret | apply quiet_raise]. Qed.

Lemma quiet_for_each {A B} (f : A -> M H E B) (l : list A) :
  (forall x, quiet (f x)) -> quiet (for_each f l).
Proof.
  intros Hf. induction l as [| x rest IH]; simpl.
  - apply quiet_ret.
  - apply quiet_bind; [apply Hf |]. intros y.
    apply quiet_bind; [exact IH |]. intros ys. apply quiet_ret.
Qed.
End Quiet.

Section QuietLoops.
Context {H : Type} (fs : LocalFS) (self : DirectoryCopy).

Lemma quiet_get_remote_path path :
  quiet (_get_remote_path self path : M H op string).
Proof.
  apply quiet_bind; [apply quiet_assert | intros; apply quiet_ret].
Qed.

Lemma quiet_get_local_path path :
  quiet (_get_local_path self path : M H op string).
Proof.
  apply quiet_bind; [apply quiet_assert | intros; apply quiet_ret].
Qed.

Lemma quiet_walk_body existing_files triple :
  quiet (walk_body self existing_files triple : M H op (stage * stage)).
Proof.
  destruct triple as [[root dirs] files].
  apply quiet_bind; [apply quiet_get_remote_path | intros; apply quiet_ret].
Qed.

Lemma quiet_file_removal_body filepath :
  quiet (file_removal_body fs self filepath : M H op stage).
Proof.
  apply quiet_bind; [apply quiet_get_local_path | intros; apply quiet_ret].
Qed.

Lemma quiet_dir_removal_body dirname :
  quiet (dir_removal_body fs self dirname : M H op stage).
Proof.
  apply quiet_bind; [apply quiet_get_local_path | intros; apply quiet_ret].
Qed.
End QuietLoops.

Lemma bind_trace {H E A B} (m : M H E A) (k : A -> M H E B) (h : H) :
  trace_of (bind m k h)
  = (trace_of (m h)
     ++ match value_of (m h) with
        | Ok a => trace_of (k a (state_of (m h)))
        | Raise _ => []
        end)%list.
Proof.
  unfold bind, trace_of, value_of, state_of.
  destruct (m h) as [[[a | e] h1] t1]; simpl.
  - now destruct (k a h1) as [[r h2] t2].
  - now rewrite app_nil_r.
Qed.

Lemma bind_quiet_trace {H E A B} (m : M H E A) (k : A -> M H E B) (h : H) :
  quiet m ->
  trace_of (bind m k h)
  = match value_of (m h) with
    | Ok a => trace_of (k a h)
    | Raise _ => []
    end.
Proof.
  intros Q. rewrite bind_trace. destruct (Q h) as [-> ->]. reflexivity.
Qed.

(** X17. Working out the plan never changes the host: whatever the host
    answers and whatever the local tree, [submodules] issues the [find]
    that lists the remote files and then at most the [find] that lists the
    remote directories, and nothing else; no write, also when it raises. *)
Theorem submodules_only_enumerates (H : Type) (host : Host H) (fs : LocalFS)
    (self : DirectoryCopy) (h : H) :
  (trace_of (submodules host fs self h) = [Run (files_command self)]
   \/ trace_of (submodules host fs self h)
      = [Run (files_command self); Run (dirs_command self)])
  /\ forallb read_oriented (trace_of (submodules host fs self h)) = true
  /\ existsb write_class (trace_of (submodules host fs self h)) = false.
Proof.
  assert (T : trace_of (submodules host fs self h) = [Run (files_command self)]
              \/ trace_of (submodules host fs self h)
                 = [Run (files_command self); Run (dirs_command self)]).
  { unfold submodules. rewrite bind_trace.
    assert (Tf : trace_of (info_files_hash host self h)
                 = [Run (files_command self)]).
    { rewrite info_files_hash_answer.
      destruct (host_run host (files_command self) true true h)
        as [[out | []] h1]; reflexivity. }
    rewrite Tf.
    destruct (value_of (info_files_hash host self h)) as [ef | e];
      [| now left].
    set (h1 := state_of (info_files_hash host self h)).
    rewrite bind_quiet_trace
      by (apply quiet_for_each; intros; apply quiet_walk_body).
    destruct (value_of (for_each _ _ h1)) as [created | e]; [| now left].
    rewrite bind_quiet_trace
      by (apply quiet_for_each; intros; apply quiet_file_removal_body).
    destruct (value_of (for_each _ _ h1)) as [removed | e]; [| now left].
    rewrite bind_trace.
    assert (Td : trace_of (info_dirs_present host self h1)
                 = [Run (dirs_command self)]).
    { rewrite info_dirs_present_answer.
      destruct (host_run host (dirs_command self) true true h1)
        as [[out | []] h2]; reflexivity. }
    rewrite Td. right.
    destruct (value_of (info_dirs_present host self h1)) as [ed | e];
      [| reflexivity].
    rewrite bind_quiet_trace
      by (apply quiet_for_each; intros; apply quiet_dir_removal_body).
    now destruct (value_of (for_each _ _ _)). }
  split; [exact T |]. destruct T as [-> | ->]; split; reflexivity.
Qed.

(** X18. [info_dirs_present] does not skip empty lines as
    [info_files_hash] does: when the [find] for directories prints nothing
    (the remote path exists but is not a directory) it returns the list
    with the one empty string, and [submodules] then fails the prefix
    assertion on that entry and raises [AssertionError], with both
    enumerations issued and no plan returned. *)
Theorem blank_directory_listing_fails_assertion (H : Type) (host : Host H)
    (fs : LocalFS) (self : DirectoryCopy) (h h1 h2 : H) (t1 : list op)
    (existing_files : dict string) (output : string) :
  valid_tree (tree_at fs (dc_local_path self)) = true ->
  info_files_hash host self h = (Ok existing_files, h1, t1) ->
  under (dc_remote_path self) (dict_keys existing_files) ->
  host_run host (dirs_command self) true true h1 = (Ok output, h2) ->
  PyStr.strip output = "" ->
  PyStr.nonempty (dc_remote_path self) = true ->
  info_dirs_present host self h1 = (Ok [""], h2, [Run (dirs_command self)])
  /\ submodules host fs self h
     = (Raise AssertionError, h2, (t1 ++ [Run (dirs_command self)])%list).
Proof.
  intros V E1 U1 E2 S N.
  assert (D : info_dirs_present host self h1
              = (Ok [""], h2, [Run (dirs_command self)]))
    by (rewrite info_dirs_present_answer, E2, S; reflexivity).
  split; [exact D |].
  unfold submodules, bind at 1. rewrite E1.
  unfold bind at 1.
  rewrite (for_each_pure _ (created_by self existing_files)).
  2:{ intros [[root dirs] files] I. apply walk_body_ok. simpl.
      eapply os_walk_roots; eauto. }
  unfold bind at 1.
  rewrite (for_each_pure _ (file_removed_by self fs)).
  2:{ intros p I. apply file_removal_body_ok. now apply U1. }
  unfold bind at 1. rewrite D.
  unfold bind at 1. simpl for_each.
  unfold bind at 1, dir_removal_body, bind at 1.
  rewrite get_local_path_mismatch; [reflexivity |].
  destruct (dc_remote_path self); [discriminate N | reflexivity].
Qed.

(** The remote path is a regular file: it is enumerated as a file, and no
    directory is found. *)
Lemma blank_directory_listing_fails_assertion_witness :
  info_dirs_present MoreExamples.file_host Examples.mirror tt
  = (Ok [""], tt, [Run (dirs_command Examples.mirror)])
  /\ submodules MoreExamples.file_host Examples.local_fs Examples.mirror tt
     = (Raise AssertionError, tt,
        [Run (files_command Examples.mirror);
         Run (dirs_command Examples.mirror)]).
Proof.
  refine (blank_directory_listing_fails_assertion unit MoreExamples.file_host
            Examples.local_fs Examples.mirror tt tt tt
            [Run (files_command Examples.mirror)] [("/dst", "c0ff")] ""
            eq_refl eq_refl _ eq_refl eq_refl eq_refl).
  intros p [<- | []]. reflexivity.
Defined.

(** X19. The first synchronisation to a remote path that does not exist:
    both enumerations find no such file, and [submodules] returns a removal
    plan of two empty stages and a creation plan for the whole local tree,
    in which no [FileCopy] unit carries a remote hash. *)
Theorem submodules_missing_remote (H : Type) (host : Host H) (fs : LocalFS)
    (self : DirectoryCopy) (h h1 h2 : H) :
  let tree := tree_at fs (dc_local_path self) in
  valid_tree tree = true ->
  host_run host (files_command self) true true h
  = (Raise NoSuchFileError, h1) ->
  host_run host (dirs_command self) true true h1
  = (Raise NoSuchFileError, h2) ->
  exists dirs_to_create files_to_copy,
    submodules host fs self h
    = (Ok ([dirs_to_create; files_to_copy], [[]; []]), h2,
       [Run (files_command self); Run (dirs_command self)])
    /\ (forall u, In u dirs_to_create <-> is_dir_to_create self tree u)
    /\ (forall u, In u files_to_copy <-> is_file_to_copy self tree [] u)
    /\ (forall u, In u files_to_copy ->
                  exists remote_path local_path,
                    u = FileCopy remote_path local_path PNone).
Proof.
  intros tree V E1 E2.
  set (created := map (created_by self [])
                    (os_walk (dc_local_path self) tree)).
  exists (List.concat (map fst created)), (List.concat (map snd created)).
  split; [| split; [| split]].
  - unfold submodules, bind at 1. rewrite info_files_hash_answer, E1.
    unfold bind at 1. fold tree.
    rewrite (for_each_pure _ (created_by self [])).
    2:{ intros [[root dirs] files] I. apply walk_body_ok. simpl.
        eapply os_walk_roots; eauto. }
    unfold bind at 1. simpl for_each. unfold ret at 1.
    unfold bind at 1. rewrite info_dirs_present_answer, E2.
    reflexivity.
  - intros u. apply dirs_to_create_spec.
  - intros u. apply files_to_copy_spec.
  - intros u I. apply files_to_copy_spec in I.
    destruct I as (root & es & n & _ & _ & ->). unfold known_hash. simpl.
    eauto.
Qed.

Lemma submodules_missing_remote_witness :
  exists dirs_to_create files_to_copy,
    submodules (Examples.scripted []) Examples.local_fs Examples.mirror tt
    = (Ok ([dirs_to_create; files_to_copy], [[]; []]), tt,
       [Run (files_command Examples.mirror);
        Run (dirs_command Examples.mirror)])
    /\ (forall u, In u dirs_to_create <->
                  is_dir_to_create Examples.mirror Examples.local_tree u)
    /\ (forall u, In u files_to_copy <->
                  is_file_to_copy Examples.mirror Examples.local_tree [] u)
    /\ (forall u, In u files_to_copy ->
                  exists remote_path local_path,
                    u = FileCopy remote_path local_path PNone).
Proof.
  exact (submodules_missing_remote unit (Examples.scripted [])
           Examples.local_fs Examples.mirror tt tt tt
           eq_refl eq_refl eq_refl).
Defined.

(** ** The path mapping *)

Lemma drop_app (a b : string) : PyStr.drop (length a) (a ++ b) = b.
Proof. induction a as [| c a IH]; simpl; [now destruct b | exact IH]. Qed.

Lemma drop_all (a : string) : PyStr.drop (length a) a = "".
Proof. induction a as [| c a IH]; simpl; [reflexivity | exact IH]. Qed.

Lemma rstrip_plain (s : string) :
  PyStr.endswith_char s PyStr.slash = false ->
  PyStr.rstrip (PyStr.is_char PyStr.slash) s = s.
Proof.
  induction s as [| a s IH]; [reflexivity |].
  destruct s as [| b s'].
  - simpl. unfold PyStr.is_char. now intros ->.
  - intros E. change (PyStr.endswith_char (String b s') PyStr.slash = false)
      in E.
    change (PyStr.rstrip (PyStr.is_char PyStr.slash) (String a (String b s')))
      with (match PyStr.rstrip (PyStr.is_char PyStr.slash) (String b s') with
            | EmptyString =>
                if PyStr.is_char PyStr.slash a then EmptyString
                else String a EmptyString
            | kept => String a kept
            end).
    now rewrite (IH E).
Qed.

Lemma strip_slash_relative (rel : string) :
  plain_relative rel = true ->
  PyStr.strip_slash ("/" ++ rel) = rel
  /\ PyStr.startswith rel "/" = false.
Proof.
  unfold plain_relative. rewrite !andb_true_iff, !negb_true_iff.
  intros [[N S] E]. split; [| exact S].
  unfold PyStr.strip_slash, PyStr.strip_by.
  change (PyStr.lstrip (PyStr.is_char PyStr.slash) ("/" ++ rel))
    with (PyStr.lstrip (PyStr.is_char PyStr.slash) rel).
  destruct rel as [| c r]; [discriminate N |].
  assert (L : PyStr.lstrip (PyStr.is_char PyStr.slash) (String c r)
              = String c r).
  { simpl in *. unfold PyStr.is_char.
    change PyStr.slash with "/"%char.
    destruct (Ascii.eqb c "/"); [| reflexivity].
    simpl in S. now destruct r. }
  rewrite L. now apply rstrip_plain.
Qed.

Lemma join_plain (root rel : string) :
  plain_root root = true -> PyStr.startswith rel "/" = false ->
  PyStr.join root rel = (root ++ "/" ++ rel)%string.
Proof.
  unfold plain_root, PyStr.join. rewrite andb_true_iff, negb_true_iff.
  intros [N E] S. now rewrite S, N, E.
Qed.

(** X20. The two path mappings are inverse to each other below the roots.
    With both roots written without a trailing slash, the local path
    [local_path/rel] maps to [remote_path/rel] and that one back to
    [local_path/rel], for every relative path [rel] without a leading or
    trailing slash.  The root itself maps to the other root with a slash
    appended. *)
Theorem path_mapping_round_trip (H : Type) (self : DirectoryCopy)
    (rel : string) (h : H) :
  plain_root (dc_local_path self) = true ->
  plain_root (dc_remote_path self) = true ->
  plain_relative rel = true ->
  let local_path := (dc_local_path self ++ "/" ++ rel)%string in
  let remote_path := (dc_remote_path self ++ "/" ++ rel)%string in
  _get_remote_path self local_path h = (Ok remote_path, h, [])
  /\ _get_local_path self remote_path h = (Ok local_path, h, [])
  /\ _get_remote_path self (dc_local_path self) h
     = (Ok (dc_remote_path self ++ "/")%string, h, []).
Proof.
  intros PL PR Prel local_path remote_path.
  destruct (strip_slash_relative rel Prel) as [S A].
  split; [| split].
  - rewrite get_remote_path_ok by apply startswith_app.
    unfold remote_of, local_path. rewrite drop_app, S.
    now rewrite join_plain.
  - rewrite get_local_path_ok by apply startswith_app.
    unfold local_of, remote_path. rewrite drop_app, S.
    now rewrite join_plain.
  - rewrite get_remote_path_ok by apply startswith_refl.
    unfold remote_of. rewrite drop_all.
    change (PyStr.strip_slash "") with "".
    now rewrite join_plain.
Qed.

Lemma path_mapping_round_trip_witness :
  _get_remote_path Examples.mirror "/src/a/f.txt" tt
  = (Ok "/dst/a/f.txt", tt, [])
  /\ _get_local_path Examples.mirror "/dst/a/f.txt" tt
     = (Ok "/src/a/f.txt", tt, [])
  /\ _get_remote_path Examples.mirror "/src" tt = (Ok "/dst/", tt, []).
Proof.
  exact (path_mapping_round_trip unit Examples.mirror "a/f.txt" tt
           eq_refl eq_refl eq_refl).
Defined.

(** ** A remote path outside the remote root *)

(** A loop whose body either contributes or fails its assertion, without
    touching the host: it returns when every element passes and raises
    [AssertionError] otherwise. *)
Lemma for_each_asserting {H E A B : Type} (f : A -> M H E B) (g : A -> B)
    (good : A -> bool) (l : list A) (h : H) :
  (forall x, f x h = if good x then (Ok (g x), h, [])
                     else (Raise AssertionError, h, [])) ->
  for_each f l h
  = if forallb good l then (Ok (map g l), h, [])
    else (Raise AssertionError, h, []).
Proof.
  intros Hf. induction l as [| x rest IH]; simpl; [reflexivity |].
  unfold bind at 1. rewrite Hf.
  destruct (good x); simpl; [| reflexivity].
  unfold bind at 1. rewrite IH.
  now destruct (forallb good rest).
Qed.

Lemma file_removal_body_cases {H : Type} (fs : LocalFS) (self : DirectoryCopy)
    (filepath : string) (h : H) :
  file_removal_body fs self filepath h
  = if PyStr.startswith filepath (dc_remote_path self)
    then (Ok (file_removed_by self fs filepath), h, [])
    else (Raise AssertionError, h, []).
Proof.
  destruct (PyStr.startswith filepath (dc_remote_path self)) eqn:S.
  - now apply file_removal_body_ok.
  - unfold file_removal_body, bind at 1.
    now rewrite get_local_path_mismatch.
Qed.

(** X21. A remote file path that does not start with the remote root stops
    the diff: [submodules] raises [AssertionError] when it maps that path
    to the local side.  Only the enumeration of the remote files has been
    issued by then, and no plan is returned. *)
Theorem path_outside_root_fails_assertion (H : Type) (host : Host H)
    (fs : LocalFS) (self : DirectoryCopy) (h h1 : H) (t1 : list op)
    (existing_files : dict string) (filepath : string) :
  valid_tree (tree_at fs (dc_local_path self)) = true ->
  info_files_hash host self h = (Ok existing_files, h1, t1) ->
  In filepath (dict_keys existing_files) ->
  PyStr.startswith filepath (dc_remote_path self) = false ->
  submodules host fs self h
  = (Raise AssertionError, h1, [Run (files_command self)]).
Proof.
  intros V E1 I S.
  assert (T : t1 = [Run (files_command self)]).
  { rewrite info_files_hash_answer in E1.
    destruct (host_run host (files_command self) true true h)
      as [[out | []] h0]; congruence. }
  subst t1.
  unfold submodules, bind at 1. rewrite E1.
  unfold bind at 1.
  rewrite (for_each_pure _ (created_by self existing_files)).
  2:{ intros [[root dirs] files] Iw. apply walk_body_ok. simpl.
      eapply os_walk_roots; eauto. }
  unfold bind at 1.
  rewrite (for_each_asserting _ (file_removed_by self fs)
             (fun p => PyStr.startswith p (dc_remote_path self)))
    by (intros; apply file_removal_body_cases).
  assert (F : forallb (fun p => PyStr.startswith p (dc_remote_path self))
                (dict_keys existing_files) = false).
  { destruct (forallb _ _) eqn:F; [| reflexivity].
    rewrite forallb_forall in F. specialize (F _ I). congruence. }
  rewrite F. reflexivity.
Qed.

Lemma path_outside_root_fails_assertion_witness :
  let host :=
    Examples.scripted
      [("find /dst -type f -exec sha256sum {} +", "c0ff  /elsewhere/g.txt")] in
  submodules host Examples.local_fs Examples.mirror tt
  = (Raise AssertionError, tt, [Run (files_command Examples.mirror)]).
Proof.
  exact (path_outside_root_fails_assertion unit
           (Examples.scripted
              [("find /dst -type f -exec sha256sum {} +",
                "c0ff  /elsewhere/g.txt")])
           Examples.local_fs Examples.mirror tt tt
           [Run (files_command Examples.mirror)]
           [("/elsewhere/g.txt", "c0ff")] "/elsewhere/g.txt"
           eq_refl eq_refl (or_introl eq_refl) eq_refl).
Defined.

(** ** The mapping that [AptUpgraded.info] builds *)

Lemma dict_fold_lookup {V} (pairs : list (string * V)) :
  forall acc,
    NoDup (dict_keys acc) ->
    NoDup (dict_keys
             (fold_left (fun d kv => dict_set (fst kv) (snd kv) d) pairs acc))
    /\ forall key,
         dict_get key
           (fold_left (fun d kv => dict_set (fst kv) (snd kv) d) pairs acc)
         = match last_value key pairs with
           | Some v => Some v
           | None => dict_get key acc
           end.
Proof.
  induction pairs as [| [k v] rest IH]; intros acc ND; simpl.
  - auto.
  - destruct (IH _ (dict_set_NoDup k v acc ND)) as [ND' L].
    split; [exact ND' |]. intros key. rewrite L.
    destruct (last_value key rest); [reflexivity |].
    rewrite dict_get_set. now destruct (String.eqb k key).
Qed.

(** X22. [AptUpgraded.info] returns one entry per package name: a name
    listed on several lines keeps the values of the last of them, and a
    name on no matching line is not in the mapping.  The command asks
    about the names joined by spaces. *)
Theorem AptUpgraded_info_last_line_wins (H : Type) (host : Host H)
    (re_groups : string -> string ->
                 option (string * string * string * string * string))
    (self : AptUpgrade.AptUpgraded) (status : string) (h h1 : H) :
  let command :=
    ("apt list --upgradeable "
     ++ String.concat " " (AptUpgrade.names self))%string in
  host_run host command true false h = (Ok status, h1) ->
  exists upgradeable,
    AptUpgrade.info host re_groups self h
    = (Ok upgradeable, h1, [Run command])
    /\ NoDup (dict_keys upgradeable)
    /\ forall name,
         dict_get name upgradeable
         = last_value name
             (AptUpgrade.parse_upgradeable re_groups
                (PyStr.split_lines (AptUpgrade.without_header status))).
Proof.
  intros command E. eexists. split; [| split].
  - unfold AptUpgrade.info, bind, run, ret. fold command. rewrite E.
    reflexivity.
  - apply dict_fold_lookup. constructor.
  - intros name. unfold dict_of_list.
    rewrite (proj2 (dict_fold_lookup _ [] (NoDup_nil _))). simpl.
    now destruct (last_value name _).
Qed.

Lemma AptUpgraded_info_last_line_wins_witness :
  exists upgradeable,
    AptUpgrade.info MoreExamples.upgrade_host MoreExamples.six_fields
      (AptUpgrade.mkAptUpgraded ["vim"; "curl"]) tt
    = (Ok upgradeable, tt, [Run "apt list --upgradeable vim curl"])
    /\ NoDup (dict_keys upgradeable)
    /\ forall name,
         dict_get name upgradeable
         = last_value name
             (AptUpgrade.parse_upgradeable MoreExamples.six_fields
                ["vim/stable 9.1 amd64 [upgradable from: 9.0]"; ""]).
Proof.
  exact (AptUpgraded_info_last_line_wins unit MoreExamples.upgrade_host
           MoreExamples.six_fields (AptUpgrade.mkAptUpgraded ["vim"; "curl"])
           _ tt tt eq_refl).
Defined.
